(** * ExcelProcessor: the row-scanning parser of the Excel file processor

    A shallow embedding of [src/components/ExcelProcessor.jsx]: the cell
    utilities ([normalizeStatus], [findNextNonEmptyCell]), the record
    builder ([getItemObject]), the workbook walker ([processWorkbook]) and
    the export adapter ([exportToExcel]), together with the JavaScript
    built-ins they rest on (truthiness, [===], string coercion,
    [String.prototype.includes], [String.prototype.replaceAll],
    [Array.prototype.find], [Array.prototype.findIndex], [RegExp.prototype.test]).

    Conventions of the model:
    - a JavaScript string is a [string] of 8-bit code units;
    - a Number is known by its canonical rendering (what [String(n)] gives),
      which identifies [+0] with [-0] and keeps [NaN] apart;
    - a hole of a sparse array reads as [undefined], as it does for indexing,
      [find] and [findIndex];
    - an exception is the [Throw] branch of the [result] type. *)

From Stdlib Require Import Ascii String ZArith Lia.
From stdpp Require Import base list strings gmap.

Local Open Scope Z_scope.

(** ** Strings *)

Module Str.

(** [s.startsWith(p)] *)
Fixpoint startsWith (p s : string) : bool :=
  match p, s with
  | EmptyString, _ => true
  | String _ _, EmptyString => false
  | String a p', String b s' => if Ascii.eqb a b then startsWith p' s' else false
  end.

(** [s.includes(p)] *)
Fixpoint includes (p s : string) : bool :=
  startsWith p s ||
  match s with
  | EmptyString => false
  | String _ s' => includes p s'
  end.

(** [s.replaceAll(pat, rep)] for a non-empty string pattern [pat]: the
    matches are found left to right and do not overlap.  [skip] counts the
    characters of the current match that are still to be dropped. *)
Fixpoint replaceAll_from (pat rep : string) (skip : nat) (s : string) : string :=
  match s with
  | EmptyString => EmptyString
  | String c s' =>
      match skip with
      | S k => replaceAll_from pat rep k s'
      | O =>
          if startsWith pat s
          then rep +:+ replaceAll_from pat rep (Nat.pred (String.length pat)) s'
          else String c (replaceAll_from pat rep O s')
      end
  end.

Definition replaceAll (pat rep s : string) : string :=
  replaceAll_from pat rep O s.

(** The characters of [s] other than [c], in order. *)
Fixpoint without (c : ascii) (s : string) : string :=
  match s with
  | EmptyString => EmptyString
  | String a s' => if Ascii.eqb a c then without c s' else String a (without c s')
  end.

(** [occurs c s]: the character [c] occurs in [s]. *)
Fixpoint occurs (c : ascii) (s : string) : bool :=
  match s with
  | EmptyString => false
  | String a s' => Ascii.eqb a c || occurs c s'
  end.

End Str.

(** ** Regular expressions

    The three patterns of the source are written with the constructors below
    and run by [RegExp.test], a matcher by derivatives.  [RegExp.test] is
    [RegExp.prototype.test] for a pattern without anchors: it succeeds when
    the pattern matches some substring of the text. *)

Module RegExp.

Inductive charclass : Type :=
| Lit (c : ascii)      (* a literal character, such as [\.] or [\*] *)
| Digit                (* [[0-9]] *)
| AnyChar.             (* [.]: any character but a line terminator *)

Definition is_digit (c : ascii) : bool :=
  (48 <=? nat_of_ascii c)%nat && (nat_of_ascii c <=? 57)%nat.

Definition is_line_terminator (c : ascii) : bool :=
  (nat_of_ascii c =? 10)%nat || (nat_of_ascii c =? 13)%nat.

Definition in_class (cc : charclass) (c : ascii) : bool :=
  match cc with
  | Lit a => Ascii.eqb a c
  | Digit => is_digit c
  | AnyChar => negb (is_line_terminator c)
  end.

Inductive regex : Type :=
| Void
| Eps
| Chr (cc : charclass)
| Seq (r1 r2 : regex)
| Alt (r1 r2 : regex)
| Star (r : regex).

(** [r+] *)
Definition Plus (r : regex) : regex := Seq r (Star r).

(** [r{n}] *)
Fixpoint Repeat (n : nat) (r : regex) : regex :=
  match n with
  | O => Eps
  | S k => Seq r (Repeat k r)
  end.

(** A literal word. *)
Fixpoint Word (w : string) : regex :=
  match w with
  | EmptyString => Eps
  | String c w' => Seq (Chr (Lit c)) (Word w')
  end.

Fixpoint nullable (r : regex) : bool :=
  match r with
  | Void => false
  | Eps => true
  | Chr _ => false
  | Seq r1 r2 => nullable r1 && nullable r2
  | Alt r1 r2 => nullable r1 || nullable r2
  | Star _ => true
  end.

Fixpoint deriv (c : ascii) (r : regex) : regex :=
  match r with
  | Void => Void
  | Eps => Void
  | Chr cc => if in_class cc c then Eps else Void
  | Seq r1 r2 =>
      if nullable r1
      then Alt (Seq (deriv c r1) r2) (deriv c r2)
      else Seq (deriv c r1) r2
  | Alt r1 r2 => Alt (deriv c r1) (deriv c r2)
  | Star r1 => Seq (deriv c r1) (Star r1)
  end.

(** The pattern matches a prefix of [s]. *)
Fixpoint matchesAtStart (r : regex) (s : string) : bool :=
  nullable r ||
  match s with
  | EmptyString => false
  | String c s' => matchesAtStart (deriv c r) s'
  end.

(** [new RegExp(r).test(s)], the pattern being tried at every position. *)
Fixpoint test (r : regex) (s : string) : bool :=
  matchesAtStart r s ||
  match s with
  | EmptyString => false
  | String _ s' => test r s'
  end.

(** The words of a pattern. *)
Inductive matches : regex -> string -> Prop :=
| m_eps : matches Eps EmptyString
| m_chr cc c : in_class cc c = true -> matches (Chr cc) (String c EmptyString)
| m_seq r1 r2 u v : matches r1 u -> matches r2 v -> matches (Seq r1 r2) (u +:+ v)
| m_alt_l r1 r2 u : matches r1 u -> matches (Alt r1 r2) u
| m_alt_r r1 r2 u : matches r2 u -> matches (Alt r1 r2) u
| m_star_nil r : matches (Star r) EmptyString
| m_star_cons r u v : matches r u -> matches (Star r) v -> matches (Star r) (u +:+ v).

End RegExp.

(** The patterns of the source. *)

(** [new RegExp(`(.+)wood`)] *)
Definition WOOD_PATTERN : RegExp.regex :=
  RegExp.Seq (RegExp.Plus (RegExp.Chr RegExp.AnyChar)) (RegExp.Word "wood").

(** [new RegExp(`[0-9]{8}\\.[0-9]`)] *)
Definition PACK_ID_PATTERN : RegExp.regex :=
  RegExp.Seq (RegExp.Repeat 8 (RegExp.Chr RegExp.Digit))
    (RegExp.Seq (RegExp.Chr (RegExp.Lit ".")) (RegExp.Chr RegExp.Digit)).

(** [new RegExp(/[0-9]+\*[0-9]+/)] *)
Definition WIDTH_PATTERN : RegExp.regex :=
  RegExp.Seq (RegExp.Plus (RegExp.Chr RegExp.Digit))
    (RegExp.Seq (RegExp.Chr (RegExp.Lit "*")) (RegExp.Plus (RegExp.Chr RegExp.Digit))).

(** ** Values *)

(** What a cell of a decoded sheet, or a field of the parse context, holds. *)
Inductive value : Type :=
| VUndefined
| VNull
| VBool (b : bool)
| VNumber (repr : string)     (* a Number, by its rendering: [VNumber "150"] *)
| VString (s : string).

(** The result of [Number(v)].  The conversion of a string is a floating-point
    parse; it is kept as the text it is applied to. *)
Inductive number : Type :=
| NumberLit (repr : string)
| NumberOfString (s : string).

(** An array, holes reading as [VUndefined]. *)
Abbreviation array := (list value).

(** [ToBoolean] *)
Definition truthy (v : value) : bool :=
  match v with
  | VUndefined | VNull => false
  | VBool b => b
  | VNumber r => negb (String.eqb r "0") && negb (String.eqb r "NaN")
  | VString s => negb (String.eqb s EmptyString)
  end.

(** [ToString], as applied by a template literal and by [RegExp.prototype.test]. *)
Definition ToString (v : value) : string :=
  match v with
  | VUndefined => "undefined"
  | VNull => "null"
  | VBool true => "true"
  | VBool false => "false"
  | VNumber r => r
  | VString s => s
  end.

(** [Number(v)] *)
Definition ToNumber (v : value) : number :=
  match v with
  | VUndefined => NumberLit "NaN"
  | VNull => NumberLit "0"
  | VBool true => NumberLit "1"
  | VBool false => NumberLit "0"
  | VNumber r => NumberLit r
  | VString s => NumberOfString s
  end.

(** [a === b] *)
Definition strictEquals (a b : value) : bool :=
  match a, b with
  | VUndefined, VUndefined => true
  | VNull, VNull => true
  | VBool x, VBool y => Bool.eqb x y
  | VNumber x, VNumber y => String.eqb x y && negb (String.eqb x "NaN")
  | VString x, VString y => String.eqb x y
  | _, _ => false
  end.

(** ** Arrays *)

(** [array[i]] for an integral [i]; out of range, [undefined]. *)
Definition at_index (a : array) (i : Z) : value :=
  if i <? 0 then VUndefined else default VUndefined (a !! Z.to_nat i).

(** An index held by the parse context: [None] is [null]. *)
Abbreviation index := (option Z).

(** [array[i]] where [i] may be [null]: the key is then the text "null",
    which no array has. *)
Definition at_key (a : array) (i : index) : value :=
  match i with
  | None => VUndefined
  | Some k => at_index a k
  end.

(** [i + 1] where [i] may be [null], which counts as 0. *)
Definition index_to_number (i : index) : Z :=
  match i with
  | None => 0
  | Some k => k
  end.

(** [array.find(p)] *)
Fixpoint find (p : value -> bool) (a : array) : value :=
  match a with
  | [] => VUndefined
  | x :: a' => if p x then x else find p a'
  end.

(** [array.findIndex(p)], the scan having reached position [i]. *)
Fixpoint findIndex_from (p : value -> bool) (a : array) (i : Z) : Z :=
  match a with
  | [] => -1
  | x :: a' => if p x then i else findIndex_from p a' (i + 1)
  end.

Definition findIndex (p : value -> bool) (a : array) : Z :=
  findIndex_from p a 0.

(** ** Errors *)

Inductive error : Type :=
| TypeError.

Inductive result (A : Type) : Type :=
| Ok (a : A)
| Throw (e : error).

Arguments Ok {A} a.
Arguments Throw {A} e.

Definition bind {A B : Type} (m : result A) (f : A -> result B) : result B :=
  match m with
  | Ok a => f a
  | Throw e => Throw e
  end.

Notation "'try' x <- m 'in' k" := (bind m (fun x => k))
  (at level 10, x name, m at level 100, k at level 200).

(** ** Constants and configuration *)

Definition WOOD_TYPES : list string := ["redwood"; "whitewood"].

Definition ID_PREFIXES : gmap string string :=
  {[ "redwood" := "R1"; "whitewood" := "W1" ]}.

(** [ID_PREFIXES[key]]: the own properties of the object.  The keys the
    program looks up are texts of cells that match [WOOD_PATTERN]. *)
Definition ID_PREFIXES_get (key : value) : value :=
  match ID_PREFIXES !! ToString key with
  | Some p => VString p
  | None => VUndefined
  end.

(** ** Utility functions *)

(** [normalizeStatus].  [status.includes] exists on strings only: on [null]
    and [undefined] the property access throws, on a number or a boolean the
    call of the missing method does. *)
Definition normalizeStatus (status : value) : result string :=
  match status with
  | VString s =>
      if Str.includes "S/F" s then Ok "SF"
      else if Str.includes "IV" s then Ok "IV"
      else if String.eqb s "V" then Ok "V"
      else Ok s
  | _ => Throw TypeError
  end.

(** The [for] loop of [findNextNonEmptyCell], about to test [i < array.length];
    [trips] is the number of iterations left before that test fails. *)
Fixpoint findNextNonEmptyCell_loop (a : array) (i : Z) (trips : nat) : value :=
  match trips with
  | O => VNull
  | S n =>
      if truthy (at_index a i) then at_index a i
      else findNextNonEmptyCell_loop a (i + 1) n
  end.

Definition findNextNonEmptyCell (a : array) (i : Z) : value :=
  findNextNonEmptyCell_loop a (i + 1) (Z.to_nat (Z.of_nat (length a) - (i + 1))).

(** ** The parse context and the output records *)

Record context : Type := mkContext {
  woodType : value;
  width : value;
  status : value;
  dimensions : option array;     (* [None] is [null] *)
  packIndex : index;
}.

Definition initialContext : context :=
  {| woodType := VNull; width := VNull; status := VNull;
     dimensions := None; packIndex := None |}.

Definition set_width (w : value) (c : context) : context :=
  {| woodType := woodType c; width := w; status := status c;
     dimensions := dimensions c; packIndex := packIndex c |}.

(** The object [getItemObject] returns. *)
Record item : Type := mkItem {
  id : string;
  packId : number;
  amount : value;
  itemStatus : string;           (* the property [status] *)
}.

(** [context.dimensions[i]]; reading a property of [null] throws. *)
Definition dimensions_at (c : context) (i : Z) : result value :=
  match dimensions c with
  | None => Throw TypeError
  | Some d => Ok (at_index d i)
  end.

(** The template literal of the [id], before the two [replaceAll]. *)
Definition idTemplate (prefix w dim : value) : string :=
  ToString prefix +:+ ToString w +:+ ToString dim +:+ "0".

Definition getItemObject (row : array) (c : context) : result item :=
  let amount := findNextNonEmptyCell row (index_to_number (packIndex c)) in
  let amountIndex := findIndex (fun cell => strictEquals cell amount) row in
  try dim <- dimensions_at c amountIndex in
  try st <- normalizeStatus (status c) in
  Ok {| id := Str.replaceAll "*" EmptyString
                (Str.replaceAll "." EmptyString
                   (idTemplate (ID_PREFIXES_get (woodType c)) (width c) dim));
        packId := ToNumber (at_key row (packIndex c));
        amount := amount;
        itemStatus := st |}.

(** ** The workbook walker *)

(** A decoded sheet: what [XLSX.utils.sheet_to_json(sheet, { header: 1 })]
    returns, an array of rows. *)
Abbreviation sheetData := (list array).

Record workbook : Type := mkWorkbook {
  SheetNames : list string;
  Sheets : gmap string sheetData;
}.

(** [XLSX.utils.sheet_to_json(workbook.Sheets[sheetName], { header: 1 })];
    a name without a sheet decodes to no rows. *)
Definition sheet_rows (wb : workbook) (sheetName : string) : sheetData :=
  default [] (Sheets wb !! sheetName).

(** The state the two nested [forEach] thread: the context and the output. *)
Abbreviation state := (context * list item)%type.

(** The predicate given to [row.find]. *)
Definition isWoodCell (cell : value) : bool :=
  existsb (fun _wood => RegExp.test WOOD_PATTERN (ToString cell)) WOOD_TYPES.

(** [sheetData[i]], a row or [undefined]. *)
Definition row_at (sd : sheetData) (i : Z) : option array :=
  if i <? 0 then None else sd !! Z.to_nat i.

(** [sheetData[i]?.[0]] *)
Definition first_cell_at (sd : sheetData) (i : Z) : value :=
  match row_at sd i with
  | None => VUndefined
  | Some r => at_index r 0
  end.

(** The header branch of the row callback. *)
Definition enterSection (sd : sheetData) (i : Z) (row : array) (wood : value) : context :=
  let woodTypeIndex := findIndex (fun cell => strictEquals cell wood) row in
  let dims := default [] (row_at sd (i + 1)) in
  let w := first_cell_at sd (i + 2) in
  {| woodType := wood;
     dimensions := Some dims;
     width := if truthy w then w else VString EmptyString;
     status := findNextNonEmptyCell row woodTypeIndex;
     packIndex := Some (findIndex (fun cell => strictEquals cell (VString "PACK")) dims) |}.

(** The test of a data row: [packId && new RegExp(...).test(packId)]. *)
Definition isDataRow (row : array) (c : context) : bool :=
  let packId := at_key row (packIndex c) in
  truthy packId && RegExp.test PACK_ID_PATTERN (ToString packId).

(** The test of the width update. *)
Definition isWidthCell (w : value) : bool :=
  truthy w && RegExp.test WIDTH_PATTERN (ToString w).

(** The callback of [sheetData.forEach((row, index) => ...)]. *)
Definition processRow (sd : sheetData) (i : Z) (row : array) (st : state) : result state :=
  let '(c, output) := st in
  let wood := find isWoodCell row in
  if truthy wood then Ok (enterSection sd i row wood, output)
  else
    try output' <- (if isDataRow row c
                    then try it <- getItemObject row c in Ok (output ++ [it])
                    else Ok output) in
    let w := first_cell_at sd (i + 1) in
    Ok (if isWidthCell w then set_width w c else c, output').

(** [sheetData.forEach], at the rows [rows] that start at position [i]. *)
Fixpoint forEachRow (sd : sheetData) (rows : list array) (i : Z) (st : state) : result state :=
  match rows with
  | [] => Ok st
  | row :: rows' => try st' <- processRow sd i row st in forEachRow sd rows' (i + 1) st'
  end.

Definition processSheet (sd : sheetData) (st : state) : result state :=
  forEachRow sd sd 0 st.

(** [sheetsList.forEach] *)
Fixpoint forEachSheet (wb : workbook) (names : list string) (st : state) : result state :=
  match names with
  | [] => Ok st
  | n :: names' => try st' <- processSheet (sheet_rows wb n) st in forEachSheet wb names' st'
  end.

(** [processWorkbook]: the list handed to [setData], unless a row threw. *)
Definition processWorkbook (wb : workbook) : result (list item) :=
  try st <- forEachSheet wb (SheetNames wb) (initialContext, []) in
  Ok (snd st).

(** ** The upload handler and the export adapter *)

(** What the component does to the outside: notices, state setters, the log
    and the file it saves. *)

(** A property value of an exported object. *)
Inductive field : Type :=
| FString (s : string)
| FNumber (n : number)
| FValue (v : value).

(** A JavaScript object as its own properties in insertion order. *)
Abbreviation object := (list (string * field)).

(** A sheet of the written book: rows of cells, a cell possibly empty. *)
Abbreviation worksheet := (list (list (option field))).

(** A book: its sheets, by name, in order. *)
Abbreviation book := (list (string * worksheet)).

Inductive effect : Type :=
| Alert (message : string)
| SetData (data : list item)
| SetFileName (name : string)
| ConsoleLog (message : string)
| ConsoleError (message : string)
| WriteFile (wb : book) (fileName : string).

(** The object literal of [getItemObject], property by property. *)
Definition item_object (it : item) : object :=
  [ ("id", FString (id it));
    ("packId", FNumber (packId it));
    ("amount", FValue (amount it));
    ("status", FString (itemStatus it)) ].

(** The property [k] of an object. *)
Fixpoint property (k : string) (o : object) : option field :=
  match o with
  | [] => None
  | (k', f) :: o' => if String.eqb k k' then Some f else property k o'
  end.

(** The keys of [objs], each at its first appearance. *)
Fixpoint collect_keys (seen : list string) (objs : list object) : list string :=
  match objs with
  | [] => seen
  | o :: objs' =>
      collect_keys
        (fold_left (fun acc kv =>
                      if existsb (String.eqb (fst kv)) acc then acc else acc ++ [fst kv])
                   o seen)
        objs'
  end.

(** Modelled from the spec: [XLSX.utils.json_to_sheet] belongs to the
    spreadsheet library, whose code is not in the repository.  It writes the
    field names of the records as the header row, in first-record key order
    (a key met only later is added after them), and then one row for each
    record. *)
Definition json_to_sheet (objs : list object) : worksheet :=
  let header := collect_keys [] objs in
  map (fun k => Some (FString k)) header
    :: map (fun o => map (fun k => property k o) header) objs.

(** Modelled from the spec: [XLSX.utils.book_new], of the same library,
    starts a book without a sheet. *)
Definition book_new : book := [].

(** Modelled from the spec: [XLSX.utils.book_append_sheet], of the same
    library, adds the sheet under the name given, after those of the book. *)
Definition book_append_sheet (wb : book) (ws : worksheet) (name : string) : book :=
  wb ++ [(name, ws)].

Definition exportToExcel (data : list item) : list effect :=
  if (Z.of_nat (length data) =? 0) then [Alert "No data to export!"]
  else
    let ws := json_to_sheet (map item_object data) in
    let wb := book_new in
    let wb := book_append_sheet wb ws "Processed Data" in
    [WriteFile wb "processed_output.xlsx"].

(** What [handleFileUpload] is given: no file, a file that cannot be read or
    decoded, or a file decoded to a workbook. *)
Inductive upload : Type :=
| NoFile
| Unreadable (name : string)
| Decoded (name : string) (wb : workbook).

Definition handleFileUpload (u : upload) : list effect :=
  match u with
  | NoFile => [Alert "Please select a valid Excel file."]
  | Unreadable _ =>
      [ConsoleError "Error reading or processing the file:";
       Alert "Failed to process the Excel file."]
  | Decoded name wb =>
      match processWorkbook wb with
      | Ok output =>
          [SetData output; SetFileName name; ConsoleLog "File processed successfully!"]
      | Throw _ =>
          [ConsoleError "Error reading or processing the file:";
           Alert "Failed to process the Excel file."]
      end
  end.

Definition is_alert (e : effect) : bool :=
  match e with Alert _ => true | _ => false end.

Definition is_write (e : effect) : bool :=
  match e with WriteFile _ _ => true | _ => false end.

(** ** The vocabulary of the specification *)

(** [s] contains the text [p]. *)
Definition contains (p s : string) : Prop :=
  exists a b, s = a +:+ p +:+ b.

(** The pattern [r] matches somewhere in [s]. *)
Definition hasMatch (r : RegExp.regex) (s : string) : Prop :=
  exists a u b, s = a +:+ u +:+ b /\ RegExp.matches r u.

(** Every character of [s] is of the class [cc]. *)
Fixpoint allInClass (cc : RegExp.charclass) (s : string) : bool :=
  match s with
  | EmptyString => true
  | String c s' => RegExp.in_class cc c && allInClass cc s'
  end.

(** Every character of [s] is a decimal digit. *)
Definition allDigits (s : string) : bool := allInClass RegExp.Digit s.

(** No character of [s] is a line terminator. *)
Definition oneLine (s : string) : bool := allInClass RegExp.AnyChar s.

(** A section-header row: some cell matches the wood-type pattern. *)
Definition isHeaderRow (row : array) : Prop :=
  exists cell, In cell row /\ hasMatch WOOD_PATTERN (ToString cell).

(** The cell at [packIndex] is present and its text matches the pack-id
    pattern. *)
Definition packCellMatches (row : array) (c : context) : Prop :=
  truthy (at_key row (packIndex c)) = true /\
  hasMatch PACK_ID_PATTERN (ToString (at_key row (packIndex c))).

(** The cell is present and its text matches the width pattern. *)
Definition widthCellMatches (w : value) : Prop :=
  truthy w = true /\ hasMatch WIDTH_PATTERN (ToString w).

(** [v] is the first truthy element of [a] at a position after [i], or
    [null] when there is none. *)
Definition firstTruthyAfter (a : array) (i : Z) (v : value) : Prop :=
  (exists j, i < j /\ 0 <= j /\ a !! Z.to_nat j = Some v /\ truthy v = true /\
             forall k, i < k < j -> truthy (at_index a k) = false)
  \/ (v = VNull /\ forall k, i < k -> truthy (at_index a k) = false).

(** [p] is the position of the first element of [a] that is [v], or -1. *)
Definition firstIndexOf (v : value) (a : array) (p : Z) : Prop :=
  (0 <= p /\ a !! Z.to_nat p = Some v /\
   forall k, (k < Z.to_nat p)%nat -> a !! k <> Some v)
  \/ (p = -1 /\ ~ In v a).

(** A header row without a truthy cell after its wood-type cell. *)
Definition headerWithoutStatus (hdr : array) : Prop :=
  exists (k : nat) wood,
    hdr !! k = Some wood /\
    hasMatch WOOD_PATTERN (ToString wood) /\
    (forall (j : nat) y, (j < k)%nat -> hdr !! j = Some y ->
                         ~ hasMatch WOOD_PATTERN (ToString y)) /\
    forall m, Z.of_nat k < m -> truthy (at_index hdr m) = false.

(** The row passes the test of a data row, its pack-id cell being looked up
    at the position of "PACK" in the dimensions row [dims]. *)
Definition passesRecognition (dims row : array) : Prop :=
  exists p, firstIndexOf (VString "PACK") dims p /\
            truthy (at_index row p) = true /\
            hasMatch PACK_ID_PATTERN (ToString (at_index row p)).


(** The fields of the context other than [width] agree. *)
Definition sameSection (c c' : context) : Prop :=
  woodType c' = woodType c /\ status c' = status c /\
  dimensions c' = dimensions c /\ packIndex c' = packIndex c.

(** The [id] as the specification words it: prefix, width and dimension
    label, concatenated, the dots and stars then removed. *)
Definition spec_id (prefix w dim : string) : string :=
  Str.without "*" (Str.without "." (prefix +:+ w +:+ dim)).

(** The row at position [n] of a sheet, empty when the sheet ends before. *)
Definition rowBelow (sd : sheetData) (n : nat) : array :=
  default [] (sd !! n).

(** The first cell of the row at position [n], [undefined] when there is no
    such row or the row has no cell. *)
Definition firstCellBelow (sd : sheetData) (n : nat) : value :=
  default VUndefined (head (rowBelow sd n)).

(** The [width] a header row captures from the cell [w]. *)
Definition capturedWidth (w : value) : value :=
  if truthy w then w else VString EmptyString.

(** ** Sample sheets *)

(** A section of one data row: header, dimensions, width, data. *)
Definition sectionSheet : sheetData :=
  [ [VString EmptyString; VString "redwood"; VString "V"];
    [VString "PACK"; VString "100"; VString "200"];
    [VString "50*60"];
    [VString "20231005.2"; VString EmptyString; VString "150"] ].

Definition sectionContext : context :=
  {| woodType := VString "redwood"; width := VString "50*60"; status := VString "V";
     dimensions := Some [VString "PACK"; VString "100"; VString "200"];
     packIndex := Some 0 |}.

(** The same section, its data row without a cell after the pack id. *)
Definition loneIdSheet : sheetData :=
  [ [VString EmptyString; VString "redwood"; VString "V"];
    [VString "PACK"; VString "100"; VString "200"];
    [VString "50*60"];
    [VString "20231005.2"] ].

(** A section whose fourth row holds a pack id and a wood type. *)
Definition twoHeadersSheet : sheetData :=
  [ [VString "redwood"; VString "V"];
    [VString "PACK"; VString "100"];
    [VString "50*60"];
    [VString "20231001.5"; VString "whitewood"; VString "IV"] ].

(** A section whose header has no cell after the wood type. *)
Definition bareHeaderSheet : sheetData :=
  [ [VString "redwood"];
    [VString "PACK"; VString "100"];
    [VString "50*60"];
    [VString "20231001.5"; VString "150"] ].

(** The three rows that open a section, and sheets without a header. *)
Definition openingSheet : sheetData :=
  [ [VString "redwood"; VString "V"];
    [VString "PACK"; VString "100"; VString "200"];
    [VString "50*60"] ].


Definition dataOnlySheet : sheetData :=
  [ [VString "20231005.2"; VString "150"] ].

Definition widthThenDataSheet : sheetData :=
  [ [];
    [VString "70*80"];
    [VString "20231005.2"; VString "150"] ].

Definition book_of (sheets : list (string * sheetData)) : workbook :=
  {| SheetNames := map fst sheets; Sheets := list_to_map sheets |}.

(** ** The component: its state and what it renders *)

(** The two [useState] cells of [ExcelProcessor]. *)
Record componentState : Type := mkState {
  data : list item;
  fileName : string;
}.

(** [useState([])] and [useState("")] with the empty text. *)
Definition initialState : componentState :=
  {| data := []; fileName := EmptyString |}.

(** What an effect of a handler does to the state: the two setters write
    their cell, the rest leaves the state alone. *)
Definition runEffect (st : componentState) (e : effect) : componentState :=
  match e with
  | SetData d => {| data := d; fileName := fileName st |}
  | SetFileName n => {| data := data st; fileName := n |}
  | _ => st
  end.

Definition runEffects (st : componentState) (es : list effect) : componentState :=
  fold_left runEffect es st.

(** [Object.keys(o)] and [Object.values(o)] *)
Definition objectKeys (o : object) : list string := map fst o.

Definition objectValues (o : object) : list field := map snd o.

(** What the component shows below the upload button. *)
Inductive content : Type :=
| DataTable (headers : list string) (rows : list (list field))
| Message (text : string).

Record view : Type := mkView {
  uploadedLine : option string;     (* the paragraph "Uploaded: " and the name *)
  exportButton : bool;              (* the button "Export to Excel File" *)
  shown : option content;
}.

(** The JSX the component returns, below the input and the upload button,
    which are always there.  [fileName && ...] keeps a part for a non-empty
    name; [data.length > 0] chooses between the table and the message. *)
Definition render (st : componentState) : view :=
  let named := negb (String.eqb (fileName st) EmptyString) in
  let filled := 0 <? Z.of_nat (length (data st)) in
  {| uploadedLine := if named then Some (fileName st) else None;
     exportButton := named && filled;
     shown :=
       if named then
         Some (match data st with
               | d0 :: _ =>
                   DataTable (objectKeys (item_object d0))
                     (map (fun row => objectValues (item_object row)) (data st))
               | [] => Message "No data available to display."
               end)
       else None |}.

(** The [onClick] of the export button: [exportToExcel] on the data of the
    state. *)
Definition clickExport (st : componentState) : list effect :=
  exportToExcel (data st).

(** ** More vocabulary *)

(** The cell [wood] at position [k] is the first cell of [row] that matches
    the wood-type pattern. *)
Definition firstWoodCell (row : array) (k : nat) (wood : value) : Prop :=
  row !! k = Some wood /\
  hasMatch WOOD_PATTERN (ToString wood) /\
  forall (j : nat) y, (j < k)%nat -> row !! j = Some y ->
                      ~ hasMatch WOOD_PATTERN (ToString y).

(** Whatever follows the first wood-type cell of [row] as its next truthy
    cell is a string; a row without a wood-type cell qualifies. *)
Definition statusIsString (row : array) : Prop :=
  forall k wood st, firstWoodCell row k wood ->
                    firstTruthyAfter row (Z.of_nat k) st ->
                    exists s, st = VString s.

(** A header row whose captured status is not a string: [null], a number or
    a boolean. *)
Definition headerWithOddStatus (hdr : array) : Prop :=
  exists k wood st, firstWoodCell hdr k wood /\
                    firstTruthyAfter hdr (Z.of_nat k) st /\
                    forall s, st <> VString s.

(** A context under which no record can fail to be built: no pack index
    yet, or a string status together with dimensions. *)
Definition readyContext (c : context) : Prop :=
  packIndex c = None \/
  ((exists s, status c = VString s) /\ exists d, dimensions c = Some d).

(** A context under which no row passes the test of a data row: no pack
    index yet, or the -1 of a dimensions row without "PACK". *)
Definition packless (c : context) : Prop :=
  packIndex c = None \/ packIndex c = Some (-1).

(** A status in normal form. *)
Definition normalStatus (code : string) : Prop :=
  code = "IV" \/ (~ contains "S/F" code /\ ~ contains "IV" code).

(** The number of rows of the sheets the workbook lists. *)
Definition rowCount (wb : workbook) : nat :=
  list_sum (map (fun n => length (sheet_rows wb n)) (SheetNames wb)).

(** The row of the written sheet for a record. *)
Definition item_row (it : item) : list (option field) :=
  [ Some (FString (id it)); Some (FNumber (packId it));
    Some (FValue (amount it)); Some (FString (itemStatus it)) ].

(** A section whose status cell holds a number. *)
Definition numberStatusSheet : sheetData :=
  [ [VString "redwood"; VNumber "5"];
    [VString "PACK"; VString "100"];
    [VString "50*60"];
    [VString "20231001.5"; VString "150"] ].

(** A section whose dimensions row has no "PACK". *)
Definition noPackSheet : sheetData :=
  [ [VString "redwood"; VString "V"];
    [VString "100"; VString "200"];
    [VString "50*60"];
    [VString "20231001.5"; VString "150"] ].





(** * Properties *)

(** ** Strings *)

Lemma app_cons (c : ascii) (s t : string) : String c s +:+ t = String c (s +:+ t).
Proof. reflexivity. Qed.

Lemma app_empty_l (t : string) : EmptyString +:+ t = t.
Proof. reflexivity. Qed.

Create Rewrite HintDb str.

#[local] Hint Rewrite app_cons app_empty_l : str.

Ltac str_simpl := autorewrite with str in *.

Lemma app_empty_r (s : string) : s +:+ EmptyString = s.
Proof. induction s as [|c s IH]; str_simpl; [reflexivity | now f_equal]. Qed.

Lemma app_assoc_str (a b c : string) : (a +:+ b) +:+ c = a +:+ (b +:+ c).
Proof. induction a as [|x a IH]; str_simpl; [reflexivity | now f_equal]. Qed.

Lemma app_eq_empty (a b : string) :
  a +:+ b = EmptyString -> a = EmptyString /\ b = EmptyString.
Proof. destruct a; str_simpl; [auto | discriminate]. Qed.

Lemma startsWith_spec (p s : string) :
  Str.startsWith p s = true <-> exists t, s = p +:+ t.
Proof.
  revert s; induction p as [|a p IH]; intros s; simpl.
  - split; [intros _; now exists s | reflexivity].
  - destruct s as [|b s].
    + split; [discriminate | intros [t Ht]; discriminate].
    + destruct (Ascii.eqb_spec a b) as [->|Hab].
      * rewrite IH. split; intros [t Ht]; exists t; str_simpl;
          [now rewrite Ht | now injection Ht].
      * split; [discriminate | intros [t Ht]; str_simpl; injection Ht; intros; congruence].
Qed.

Lemma includes_spec (p s : string) :
  Str.includes p s = true <-> contains p s.
Proof.
  unfold contains. induction s as [|c s IH].
  - simpl. rewrite orb_false_r, startsWith_spec. split.
    + intros [t Ht]. now exists EmptyString, t.
    + intros (a & b & Hab). symmetry in Hab.
      apply app_eq_empty in Hab as [-> Hp].
      apply app_eq_empty in Hp as [-> ->]. now exists EmptyString.
  - cbn [Str.includes]. rewrite orb_true_iff, startsWith_spec, IH. split.
    + intros [[t Ht] | (a & b & Hab)].
      * now exists EmptyString, t.
      * exists (String c a), b. str_simpl. now rewrite Hab.
    + intros (a & b & Hab). destruct a as [|x a]; str_simpl.
      * left. now exists b.
      * right. injection Hab as _ Hs. now exists a, b.
Qed.

Lemma replaceAll_char (c : ascii) (s : string) :
  Str.replaceAll (String c EmptyString) EmptyString s = Str.without c s.
Proof.
  unfold Str.replaceAll. induction s as [|a s IH]; [reflexivity|].
  cbn [Str.replaceAll_from Str.without Str.startsWith String.length Nat.pred].
  rewrite (Ascii.eqb_sym a c).
  destruct (Ascii.eqb c a); str_simpl; now rewrite IH.
Qed.

Lemma without_occurs (c : ascii) (s : string) : Str.occurs c (Str.without c s) = false.
Proof.
  induction s as [|a s IH]; [reflexivity|]. simpl.
  destruct (Ascii.eqb a c) eqn:E; [exact IH | simpl; now rewrite E, IH].
Qed.

Lemma without_keeps_absent (c d : ascii) (s : string) :
  Str.occurs d s = false -> Str.occurs d (Str.without c s) = false.
Proof.
  induction s as [|a s IH]; [reflexivity|]. simpl.
  rewrite orb_false_iff. intros [Ha Hs].
  destruct (Ascii.eqb a c); [auto | simpl; now rewrite Ha, IH].
Qed.

(** ** Regular expressions: the matcher finds exactly the words of the pattern *)

Lemma nullable_matches (r : RegExp.regex) :
  RegExp.nullable r = true -> RegExp.matches r EmptyString.
Proof.
  induction r; simpl; intros H; try discriminate.
  - constructor.
  - apply andb_true_iff in H as [H1 H2].
    rewrite <- (app_empty_l EmptyString). constructor; auto.
  - apply orb_true_iff in H as [H|H]; [apply RegExp.m_alt_l | apply RegExp.m_alt_r]; auto.
  - constructor.
Qed.

Lemma matches_nullable (r : RegExp.regex) (s : string) :
  RegExp.matches r s -> s = EmptyString -> RegExp.nullable r = true.
Proof.
  induction 1; simpl; intros E; try discriminate; try reflexivity.
  - apply app_eq_empty in E as [-> ->]. rewrite IHmatches1, IHmatches2; auto.
  - rewrite IHmatches; auto.
  - rewrite IHmatches; auto. apply orb_true_r.
Qed.

Lemma deriv_sound (r : RegExp.regex) (c : ascii) (s : string) :
  RegExp.matches (RegExp.deriv c r) s -> RegExp.matches r (String c s).
Proof.
  revert s; induction r; simpl; intros s H.
  - inversion H.
  - inversion H.
  - destruct (RegExp.in_class cc c) eqn:E; inversion H; subst. now constructor.
  - assert (Hseq : forall t, RegExp.matches (RegExp.Seq (RegExp.deriv c r1) r2) t ->
                             RegExp.matches (RegExp.Seq r1 r2) (String c t)).
    { intros t Ht. inversion Ht; subst.
      rewrite <- app_cons. constructor; auto. }
    destruct (RegExp.nullable r1) eqn:N; [|auto].
    inversion H; subst; [auto|].
    rewrite <- (app_empty_l (String c s)).
    constructor; [now apply nullable_matches | auto].
  - inversion H; subst; [apply RegExp.m_alt_l | apply RegExp.m_alt_r]; auto.
  - inversion H; subst.
    rewrite <- app_cons. constructor; auto.
Qed.

Lemma deriv_complete (r : RegExp.regex) (w : string) :
  RegExp.matches r w ->
  forall c s, w = String c s -> RegExp.matches (RegExp.deriv c r) s.
Proof.
  induction 1; intros a s E; simpl.
  - discriminate.
  - injection E as -> <-. rewrite H. constructor.
  - destruct u as [|x u]; str_simpl.
    + rewrite (matches_nullable _ _ H eq_refl). apply RegExp.m_alt_r; auto.
    + injection E as -> <-.
      destruct (RegExp.nullable r1); [apply RegExp.m_alt_l|]; constructor; auto.
  - apply RegExp.m_alt_l; auto.
  - apply RegExp.m_alt_r; auto.
  - discriminate.
  - destruct u as [|x u]; str_simpl.
    + apply IHmatches2 in E. exact E.
    + injection E as -> <-. constructor; auto.
Qed.

Lemma matchesAtStart_spec (r : RegExp.regex) (s : string) :
  RegExp.matchesAtStart r s = true <->
  exists u v, s = u +:+ v /\ RegExp.matches r u.
Proof.
  revert r; induction s as [|c s IH]; intros r; cbn [RegExp.matchesAtStart].
  - rewrite orb_false_r. split.
    + intros N. exists EmptyString, EmptyString.
      split; [reflexivity | now apply nullable_matches].
    + intros (u & v & E & M). symmetry in E. apply app_eq_empty in E as [-> _].
      now apply (matches_nullable r EmptyString).
  - rewrite orb_true_iff, IH. split.
    + intros [N | (u & v & -> & M)].
      * exists EmptyString, (String c s).
        split; [reflexivity | now apply nullable_matches].
      * exists (String c u), v. split; [reflexivity | now apply deriv_sound].
    + intros (u & v & E & M). destruct u as [|x u]; str_simpl.
      * left. now apply (matches_nullable r EmptyString).
      * injection E as <- ->. right. exists u, v.
        split; [reflexivity | now apply (deriv_complete r (String c u))].
Qed.

Lemma test_spec (r : RegExp.regex) (s : string) :
  RegExp.test r s = true <-> hasMatch r s.
Proof.
  unfold hasMatch. induction s as [|c s IH]; cbn [RegExp.test].
  - rewrite orb_false_r, matchesAtStart_spec. split.
    + intros (u & v & E & M). now exists EmptyString, u, v.
    + intros (a & u & b & E & M). symmetry in E.
      apply app_eq_empty in E as [-> E]. now exists u, b.
  - rewrite orb_true_iff, matchesAtStart_spec, IH. split.
    + intros [(u & v & E & M) | (a & u & b & E & M)].
      * now exists EmptyString, u, v.
      * exists (String c a), u, b. str_simpl. now rewrite E.
    + intros (a & u & b & E & M). destruct a as [|x a]; str_simpl.
      * left. now exists u, b.
      * injection E as _ E. right. now exists a, u, b.
Qed.

(** The words of the three patterns of the source. *)

Lemma matches_chr (cc : RegExp.charclass) (u : string) :
  RegExp.matches (RegExp.Chr cc) u <->
  exists c, u = String c EmptyString /\ RegExp.in_class cc c = true.
Proof.
  split.
  - intros H; inversion H; subst. eauto.
  - intros (c & -> & H). now constructor.
Qed.

Lemma matches_seq (r1 r2 : RegExp.regex) (w : string) :
  RegExp.matches (RegExp.Seq r1 r2) w <->
  exists u v, w = u +:+ v /\ RegExp.matches r1 u /\ RegExp.matches r2 v.
Proof.
  split.
  - intros H; inversion H; subst. eauto.
  - intros (u & v & -> & H1 & H2). now constructor.
Qed.

Lemma matches_star_class (cc : RegExp.charclass) (u : string) :
  RegExp.matches (RegExp.Star (RegExp.Chr cc)) u <-> allInClass cc u = true.
Proof.
  split.
  - intros H. remember (RegExp.Star (RegExp.Chr cc)) as r eqn:Er.
    induction H; try discriminate; [reflexivity|].
    injection Er as ->. specialize (IHmatches2 eq_refl).
    apply matches_chr in H as (c & -> & Hc). str_simpl.
    cbn [allInClass]. now rewrite Hc.
  - induction u as [|c u IH]; cbn [allInClass]; intros H; [constructor|].
    apply andb_true_iff in H as [Hc Hu].
    change (String c u) with (String c EmptyString +:+ u).
    constructor; [now constructor | auto].
Qed.

Lemma matches_plus_class (cc : RegExp.charclass) (u : string) :
  RegExp.matches (RegExp.Plus (RegExp.Chr cc)) u <->
  u <> EmptyString /\ allInClass cc u = true.
Proof.
  unfold RegExp.Plus. rewrite matches_seq. split.
  - intros (a & b & -> & Ha & Hb).
    apply matches_chr in Ha as (c & -> & Hc). apply matches_star_class in Hb.
    str_simpl. cbn [allInClass]. rewrite Hc, Hb. split; [discriminate | reflexivity].
  - intros [Hne Hd]. destruct u as [|c u]; [congruence|]. cbn [allInClass] in Hd.
    apply andb_true_iff in Hd as [Hc Hu].
    exists (String c EmptyString), u. split; [reflexivity|].
    split; [now constructor | now apply matches_star_class].
Qed.

Lemma matches_repeat_class (n : nat) (cc : RegExp.charclass) (u : string) :
  RegExp.matches (RegExp.Repeat n (RegExp.Chr cc)) u <->
  String.length u = n /\ allInClass cc u = true.
Proof.
  revert u; induction n as [|n IH]; intros u; cbn [RegExp.Repeat].
  - split.
    + intros H; inversion H; subst; auto.
    + intros [Hl _]. destruct u; [constructor | discriminate].
  - rewrite matches_seq. split.
    + intros (a & b & -> & Ha & Hb).
      apply matches_chr in Ha as (c & -> & Hc). apply IH in Hb as [Hl Hd].
      str_simpl. cbn [allInClass String.length]. now rewrite Hc, Hd, Hl.
    + intros [Hl Hd]. destruct u as [|c u]; [discriminate|].
      cbn [allInClass String.length] in *.
      apply andb_true_iff in Hd as [Hc Hu]. injection Hl as Hl.
      exists (String c EmptyString), u. split; [reflexivity|].
      split; [now constructor | now apply IH].
Qed.

Lemma matches_word (w u : string) :
  RegExp.matches (RegExp.Word w) u <-> u = w.
Proof.
  revert u; induction w as [|c w IH]; intros u; simpl.
  - split; [intros H; now inversion H | intros ->; constructor].
  - rewrite matches_seq. split.
    + intros (a & b & -> & Ha & Hb).
      apply matches_chr in Ha as (x & -> & Hx). apply IH in Hb as ->.
      simpl in Hx. apply Ascii.eqb_eq in Hx as ->. reflexivity.
    + intros ->. exists (String c EmptyString), w. split; [reflexivity|].
      split; [constructor; simpl; apply Ascii.eqb_refl | now apply IH].
Qed.

(** A match of the pack-id pattern: eight digits, a dot, one digit. *)
Lemma PACK_ID_PATTERN_words (u : string) :
  RegExp.matches PACK_ID_PATTERN u <->
  exists d8 d, u = d8 +:+ "." +:+ String d EmptyString /\
               String.length d8 = 8%nat /\ allDigits d8 = true /\
               RegExp.is_digit d = true.
Proof.
  unfold PACK_ID_PATTERN. rewrite matches_seq. split.
  - intros (a & b & -> & Ha & Hb). apply matches_repeat_class in Ha as [Hl Hd].
    apply matches_seq in Hb as (x & y & -> & Hx & Hy).
    apply matches_chr in Hx as (cx & -> & Hcx). apply matches_chr in Hy as (cy & -> & Hcy).
    cbn [RegExp.in_class] in Hcx, Hcy. apply Ascii.eqb_eq in Hcx as <-.
    exists a, cy. auto.
  - intros (d8 & d & -> & Hl & Hd & Hc). exists d8, ("." +:+ String d EmptyString).
    split; [reflexivity|]. split; [now apply matches_repeat_class|].
    apply matches_seq. exists ".", (String d EmptyString).
    split; [reflexivity|]. split; now constructor.
Qed.

(** A match of the width pattern: digits, a star, digits. *)
Lemma WIDTH_PATTERN_words (u : string) :
  RegExp.matches WIDTH_PATTERN u <->
  exists m n, u = m +:+ "*" +:+ n /\
              m <> EmptyString /\ allDigits m = true /\
              n <> EmptyString /\ allDigits n = true.
Proof.
  unfold WIDTH_PATTERN. rewrite matches_seq. split.
  - intros (a & b & -> & Ha & Hb). apply matches_plus_class in Ha as [Hne Hd].
    apply matches_seq in Hb as (x & y & -> & Hx & Hy).
    apply matches_chr in Hx as (cx & -> & Hcx). apply matches_plus_class in Hy as [Hny Hdy].
    cbn [RegExp.in_class] in Hcx. apply Ascii.eqb_eq in Hcx as <-.
    exists a, y. auto.
  - intros (m & n & -> & Hm & Hdm & Hn & Hdn). exists m, ("*" +:+ n).
    split; [reflexivity|]. split; [now apply matches_plus_class|].
    apply matches_seq. exists "*", n.
    split; [reflexivity|]. split; [now constructor | now apply matches_plus_class].
Qed.

(** A match of the wood-type pattern: one character or more, none of them
    a line terminator, and then the letters of "wood". *)
Lemma WOOD_PATTERN_words (u : string) :
  RegExp.matches WOOD_PATTERN u <->
  exists p, u = p +:+ "wood" /\ p <> EmptyString /\ oneLine p = true.
Proof.
  unfold WOOD_PATTERN. rewrite matches_seq. split.
  - intros (a & b & -> & Ha & Hb). apply matches_plus_class in Ha as [Hne Hd].
    apply matches_word in Hb as ->. exists a. auto.
  - intros (p & -> & Hne & Hd). exists p, "wood". split; [reflexivity|].
    split; [now apply matches_plus_class | now apply matches_word].
Qed.

(** ** Values and arrays *)

Lemma strictEquals_eq (a b : value) : strictEquals a b = true -> a = b.
Proof.
  destruct a, b; simpl; try discriminate; try reflexivity.
  - intros H. apply Bool.eqb_prop in H. now subst.
  - intros H. apply andb_true_iff in H as [H _]. apply String.eqb_eq in H. now subst.
  - intros H. apply String.eqb_eq in H. now subst.
Qed.

Lemma strictEquals_refl (v : value) : truthy v = true -> strictEquals v v = true.
Proof.
  destruct v; simpl; try discriminate; try reflexivity.
  - intros _. now destruct b.
  - intros H. apply andb_true_iff in H as [_ H]. now rewrite String.eqb_refl, H.
  - intros _. apply String.eqb_refl.
Qed.

Lemma at_index_lookup (a : array) (j : Z) (v : value) :
  0 <= j -> a !! Z.to_nat j = Some v -> at_index a j = v.
Proof.
  intros Hj Hl. unfold at_index.
  destruct (Z.ltb_spec j 0); [lia|]. now rewrite Hl.
Qed.

Lemma at_index_truthy (a : array) (j : Z) :
  truthy (at_index a j) = true ->
  0 <= j < Z.of_nat (length a) /\ a !! Z.to_nat j = Some (at_index a j).
Proof.
  unfold at_index. destruct (j <? 0) eqn:E; [discriminate|].
  destruct (a !! Z.to_nat j) as [v|] eqn:L; simpl; [|discriminate].
  intros _. apply lookup_lt_Some in L. split; [lia | reflexivity].
Qed.

Lemma at_index_beyond (a : array) (j : Z) :
  Z.of_nat (length a) <= j -> at_index a j = VUndefined.
Proof.
  intros H. unfold at_index. destruct (j <? 0); [reflexivity|].
  rewrite lookup_ge_None_2; [reflexivity | lia].
Qed.

(** [find] and [findIndex] stop at the same, first, element that passes. *)
Lemma find_findIndex (p : value -> bool) (a : array) (i : Z) :
  (exists (k : nat) x,
      a !! k = Some x /\ p x = true /\
      (forall (j : nat) y, (j < k)%nat -> a !! j = Some y -> p y = false) /\
      find p a = x /\ findIndex_from p a i = i + Z.of_nat k)
  \/ ((forall x, In x a -> p x = false) /\
      find p a = VUndefined /\ findIndex_from p a i = -1).
Proof.
  revert i; induction a as [|x a IH]; intros i; simpl.
  - right. split; [intros ? [] | auto].
  - destruct (p x) eqn:Px.
    + left. exists O, x. repeat split; auto; [intros; lia | lia].
    + destruct (IH (i + 1)) as [(k & y & Hk & Py & Hlt & Hf & Hi) | (Hall & Hf & Hi)].
      * left. exists (S k), y. repeat split; auto; [|lia].
        intros [|j] z Hj Hz; simpl in Hz; [congruence | eapply Hlt; eauto; lia].
      * right. split; [|auto]. intros z [<-|Hz]; auto.
Qed.

Lemma findIndex_self_equal (v : value) (a : array) :
  strictEquals v v = true ->
  firstIndexOf v a (findIndex (fun cell => strictEquals cell v) a).
Proof.
  intros Hv. unfold findIndex, firstIndexOf.
  destruct (find_findIndex (fun cell => strictEquals cell v) a 0)
    as [(k & y & Hk & Py & Hlt & _ & ->) | (Hall & _ & ->)].
  - left. apply strictEquals_eq in Py as ->.
    rewrite Z.add_0_l, Nat2Z.id. repeat split; [lia | assumption |].
    intros j Hj Hjv. specialize (Hlt j v Hj Hjv). cbn in Hlt. congruence.
  - right. split; [reflexivity|]. intros Hin. specialize (Hall v Hin). cbn in Hall.
    congruence.
Qed.

Lemma findIndex_firstIndexOf (v : value) (a : array) :
  truthy v = true ->
  firstIndexOf v a (findIndex (fun cell => strictEquals cell v) a).
Proof. intros Hv. apply findIndex_self_equal. now apply strictEquals_refl. Qed.

(** ** findNextNonEmptyCell *)

Lemma findNextNonEmptyCell_loop_spec (a : array) (trips : nat) (i : Z) :
  let v := findNextNonEmptyCell_loop a i trips in
  (exists j, i <= j < i + Z.of_nat trips /\ at_index a j = v /\ truthy v = true /\
             forall k, i <= k < j -> truthy (at_index a k) = false)
  \/ (v = VNull /\ forall k, i <= k < i + Z.of_nat trips -> truthy (at_index a k) = false).
Proof.
  revert i; induction trips as [|n IH]; intros i; cbn zeta.
  - right. split; [reflexivity | intros; lia].
  - cbn [findNextNonEmptyCell_loop]. destruct (truthy (at_index a i)) eqn:T.
    + left. exists i. repeat split; auto; [lia | lia | intros; lia].
    + destruct (IH (i + 1)) as [(j & Hj & Hv & Ht & Hf) | (Hv & Hf)].
      * left. exists j. repeat split; auto; [lia | lia |].
        intros k Hk. destruct (Z.eq_dec k i) as [->|]; [assumption | apply Hf; lia].
      * right. split; [assumption|].
        intros k Hk. destruct (Z.eq_dec k i) as [->|]; [assumption | apply Hf; lia].
Qed.

Lemma findNextNonEmptyCell_spec (a : array) (i : Z) :
  firstTruthyAfter a i (findNextNonEmptyCell a i).
Proof.
  unfold firstTruthyAfter, findNextNonEmptyCell.
  set (trips := Z.to_nat (Z.of_nat (length a) - (i + 1))).
  destruct (findNextNonEmptyCell_loop_spec a trips (i + 1))
    as [(j & Hj & Hv & Ht & Hf) | (Hv & Hf)].
  - left. exists j. pose proof Ht as Ht'. rewrite <- Hv in Ht.
    destruct (at_index_truthy a j Ht) as [Hr Hl].
    rewrite Hv in Hl. repeat split; auto; try lia. intros k Hk. apply Hf. lia.
  - right. split; [assumption|]. intros k Hk.
    destruct (Z_lt_le_dec k (Z.of_nat (length a))) as [Hlt|Hge].
    + apply Hf. subst trips. lia.
    + now rewrite at_index_beyond.
Qed.

(** ** Header rows *)

Lemma isWoodCell_spec (cell : value) :
  isWoodCell cell = true <-> hasMatch WOOD_PATTERN (ToString cell).
Proof.
  unfold isWoodCell, WOOD_TYPES. cbn [existsb].
  rewrite orb_false_r, orb_diag. apply test_spec.
Qed.

Lemma wood_cell_truthy (cell : value) : isWoodCell cell = true -> truthy cell = true.
Proof.
  destruct cell as [| |[|]|r|s]; try (vm_compute; congruence).
  - intros H. cbn [truthy]. apply andb_true_iff. split; apply negb_true_iff.
    + destruct (String.eqb_spec r "0") as [->|]; [vm_compute in H; discriminate | reflexivity].
    + destruct (String.eqb_spec r "NaN") as [->|]; [vm_compute in H; discriminate | reflexivity].
  - intros H. cbn [truthy]. apply negb_true_iff.
    destruct (String.eqb_spec s EmptyString) as [->|]; [vm_compute in H; discriminate | reflexivity].
Qed.

Lemma lookup_In (a : array) (k : nat) (x : value) : a !! k = Some x -> In x a.
Proof. intros H. apply list_elem_of_In. eapply list_elem_of_lookup_2; eauto. Qed.

Lemma header_row_iff (row : array) :
  isHeaderRow row <-> truthy (find isWoodCell row) = true.
Proof.
  unfold isHeaderRow.
  destruct (find_findIndex isWoodCell row 0)
    as [(k & x & Hk & Px & _ & -> & _) | (Hall & -> & _)].
  - split; [intros _; now apply wood_cell_truthy|].
    intros _. exists x. split; [eapply lookup_In; eauto | now apply isWoodCell_spec].
  - split; [|discriminate].
    intros (cell & Hin & Hm). apply isWoodCell_spec in Hm.
    rewrite (Hall cell Hin) in Hm. discriminate.
Qed.

Lemma header_row_dec (row : array) : isHeaderRow row \/ ~ isHeaderRow row.
Proof.
  rewrite header_row_iff. destruct (truthy (find isWoodCell row)); [now left | now right].
Qed.

Lemma row_at_nat (sd : sheetData) (n : nat) : row_at sd (Z.of_nat n) = sd !! n.
Proof.
  unfold row_at. destruct (Z.ltb_spec (Z.of_nat n) 0); [lia|]. now rewrite Nat2Z.id.
Qed.

Lemma at_index_0 (a : array) : at_index a 0 = default VUndefined (head a).
Proof. destruct a; reflexivity. Qed.

Lemma first_cell_at_nat (sd : sheetData) (n : nat) :
  first_cell_at sd (Z.of_nat n) = firstCellBelow sd n.
Proof.
  unfold first_cell_at, firstCellBelow, rowBelow. rewrite row_at_nat.
  destruct (sd !! n) as [r|]; simpl; [apply at_index_0 | reflexivity].
Qed.

(** ** The row callback, case by case *)

Lemma isDataRow_spec (row : array) (c : context) :
  isDataRow row c = true <-> packCellMatches row c.
Proof.
  unfold isDataRow, packCellMatches. now rewrite andb_true_iff, test_spec.
Qed.

Lemma isWidthCell_spec (w : value) : isWidthCell w = true <-> widthCellMatches w.
Proof.
  unfold isWidthCell, widthCellMatches. now rewrite andb_true_iff, test_spec.
Qed.

Lemma processRow_header (sd : sheetData) (i : Z) (row : array) (c : context)
      (output : list item) :
  truthy (find isWoodCell row) = true ->
  processRow sd i row (c, output) = Ok (enterSection sd i row (find isWoodCell row), output).
Proof. intros H. unfold processRow. now rewrite H. Qed.

Lemma processRow_plain (sd : sheetData) (i : Z) (row : array) (c : context)
      (output : list item) :
  truthy (find isWoodCell row) = false ->
  isDataRow row c = false ->
  processRow sd i row (c, output) =
  Ok (if isWidthCell (first_cell_at sd (i + 1))
      then set_width (first_cell_at sd (i + 1)) c else c, output).
Proof. intros H D. unfold processRow. now rewrite H, D. Qed.

Lemma processRow_data (sd : sheetData) (i : Z) (row : array) (c : context)
      (output : list item) :
  truthy (find isWoodCell row) = false ->
  isDataRow row c = true ->
  processRow sd i row (c, output) =
  match getItemObject row c with
  | Ok it => Ok (if isWidthCell (first_cell_at sd (i + 1))
                 then set_width (first_cell_at sd (i + 1)) c else c, output ++ [it])
  | Throw e => Throw e
  end.
Proof.
  intros H D. unfold processRow. rewrite H, D.
  destruct (getItemObject row c); reflexivity.
Qed.

Lemma throw_is_TypeError {A : Type} (e : error) : @Throw A e = Throw TypeError.
Proof. now destruct e. Qed.

Lemma getItemObject_ok (row : array) (c : context) (s : string) (d : array) :
  status c = VString s -> dimensions c = Some d ->
  exists it, getItemObject row c = Ok it.
Proof.
  intros Hs Hd. unfold getItemObject, dimensions_at. rewrite Hs, Hd. cbn [bind normalizeStatus].
  destruct (Str.includes "S/F" s); [eauto|].
  destruct (Str.includes "IV" s); [eauto|].
  destruct (String.eqb s "V"); eauto.
Qed.

Lemma getItemObject_not_string (row : array) (c : context) :
  (forall s, status c <> VString s) -> getItemObject row c = Throw TypeError.
Proof.
  intros Hs. unfold getItemObject, dimensions_at.
  destruct (dimensions c); [|reflexivity]. cbn [bind].
  destruct (status c); try reflexivity. now destruct (Hs s).
Qed.

(** ** Status normalization *)

(** C6. [normalizeStatus] returns on every string, and applies the first rule
    that fits, in this order: a string that contains "S/F" gives "SF";
    otherwise one that contains "IV" gives "IV"; otherwise the string "V"
    gives "V"; otherwise the string comes back unchanged.  A string that
    contains both "S/F" and "IV" gives "SF". *)
Theorem normalizeStatus_first_match (s : string) :
  exists code, normalizeStatus (VString s) = Ok code /\
    (contains "S/F" s -> code = "SF") /\
    (~ contains "S/F" s -> contains "IV" s -> code = "IV") /\
    (~ contains "S/F" s -> ~ contains "IV" s -> s = "V" -> code = "V") /\
    (~ contains "S/F" s -> ~ contains "IV" s -> s <> "V" -> code = s) /\
    (contains "S/F" s -> contains "IV" s -> code = "SF").
Proof.
  cbn [normalizeStatus].
  destruct (Str.includes "S/F" s) eqn:SF.
  { apply includes_spec in SF. exists "SF". repeat split; auto; tauto. }
  assert (NSF : ~ contains "S/F" s) by (rewrite <- includes_spec; congruence).
  destruct (Str.includes "IV" s) eqn:IV.
  { apply includes_spec in IV. exists "IV". repeat split; auto; tauto. }
  assert (NIV : ~ contains "IV" s) by (rewrite <- includes_spec; congruence).
  destruct (String.eqb_spec s "V") as [->|NV].
  - exists "V". repeat split; auto; tauto.
  - exists s. repeat split; auto; tauto.
Qed.

Lemma normalizeStatus_first_match_witness :
  contains "S/F" "Some S/F IV text" /\ contains "IV" "Some S/F IV text" /\
  normalizeStatus (VString "Some S/F IV text") = Ok "SF".
Proof.
  assert (H1 : contains "S/F" "Some S/F IV text") by (now exists "Some ", " IV text").
  assert (H2 : contains "IV" "Some S/F IV text") by (now exists "Some S/F ", " text").
  split; [exact H1 | split; [exact H2 |]].
  destruct (normalizeStatus_first_match "Some S/F IV text")
    as (code & Hn & _ & _ & _ & _ & Hboth).
  rewrite Hn. f_equal. exact (Hboth H1 H2).
Defined.

(** ** The next non-empty cell *)

(** C7. [findNextNonEmptyCell] returns the first truthy element at a position
    after the index given, whatever falsy cells lie between, and [null] when
    there is none; the [amount] of a record is that cell for the row and the
    pack index of the context. *)
Theorem findNextNonEmptyCell_first_truthy (a : array) (i : Z) :
  firstTruthyAfter a i (findNextNonEmptyCell a i) /\
  (forall c it, packIndex c = Some i -> getItemObject a c = Ok it ->
                firstTruthyAfter a i (amount it)).
Proof.
  split; [apply findNextNonEmptyCell_spec|].
  intros c it Hp Hg. unfold getItemObject in Hg. rewrite Hp in Hg. cbn [index_to_number] in Hg.
  destruct (dimensions_at c _); [|discriminate]. cbn [bind] in Hg.
  destruct (normalizeStatus (status c)); [|discriminate]. cbn [bind] in Hg.
  injection Hg as <-. cbn [amount]. apply findNextNonEmptyCell_spec.
Qed.

Lemma findNextNonEmptyCell_first_truthy_witness :
  firstTruthyAfter
    [VString "20231005.2"; VString EmptyString; VString "150"] 0 (VString "150").
Proof.
  destruct (findNextNonEmptyCell_first_truthy
              [VString "20231005.2"; VString EmptyString; VString "150"] 0) as [_ H].
  apply (H sectionContext
           {| id := "R150602000"; packId := NumberOfString "20231005.2";
              amount := VString "150"; itemStatus := "V" |}); reflexivity.
Defined.

(** ** The export adapter *)

(** C9. [exportToExcel] on an empty list raises the notice and writes no
    file; on a list of at least one record it writes one book of exactly one
    sheet, named "Processed Data", whose first row is the keys [id],
    [packId], [amount], [status] in that order. *)
Theorem exportToExcel_behaviour (it : item) (data : list item) :
  exportToExcel [] = [Alert "No data to export!"] /\
  existsb is_write (exportToExcel []) = false /\
  exists rows,
    exportToExcel (it :: data) =
      [WriteFile [("Processed Data",
                   [Some (FString "id"); Some (FString "packId");
                    Some (FString "amount"); Some (FString "status")] :: rows)]
                 "processed_output.xlsx"] /\
    length rows = length (it :: data).
Proof.
  split; [reflexivity|]. split; [reflexivity|].
  unfold exportToExcel.
  destruct (Z.eqb_spec (Z.of_nat (length (it :: data))) 0) as [E|_]; [discriminate E|].
  assert (Hk : forall l : list item,
             collect_keys ["id"; "packId"; "amount"; "status"] (map item_object l)
             = ["id"; "packId"; "amount"; "status"]).
  { induction l as [|x l IH]; [reflexivity | exact IH]. }
  unfold json_to_sheet, book_append_sheet, book_new.
  cbn [map collect_keys].
  change (fold_left _ (item_object it) []) with ["id"; "packId"; "amount"; "status"].
  rewrite Hk. eexists. split; [reflexivity|].
  cbn [length]. now rewrite !length_map.
Qed.

(** ** Section headers *)

Lemma findIndex_of_found (row : array) (k : nat) (x : value) :
  row !! k = Some x -> isWoodCell x = true ->
  (forall (j : nat) y, (j < k)%nat -> row !! j = Some y -> isWoodCell y = false) ->
  findIndex (fun cell => strictEquals cell x) row = Z.of_nat k.
Proof.
  intros Hk Px Hlt.
  destruct (findIndex_firstIndexOf x row (wood_cell_truthy x Px))
    as [(Hp & Hl & Hbefore) | (_ & Hnot)].
  - set (p := findIndex (fun cell => strictEquals cell x) row) in *.
    destruct (Nat.lt_trichotomy (Z.to_nat p) k) as [Hlt'|[Heq|Hgt]].
    + rewrite (Hlt _ _ Hlt' Hl) in Px. discriminate.
    + lia.
    + now destruct (Hbefore k Hgt).
  - destruct Hnot. eapply lookup_In; eauto.
Qed.

(** What a header row makes of the context. *)
Lemma enterSection_spec (sd : sheetData) (i : nat) (row : array)
        (c : context) (output : list item) :
  isHeaderRow row ->
  exists (k : nat) (wood st : value) (p : Z),
    row !! k = Some wood /\
    hasMatch WOOD_PATTERN (ToString wood) /\
    (forall (j : nat) y, (j < k)%nat -> row !! j = Some y ->
                         ~ hasMatch WOOD_PATTERN (ToString y)) /\
    firstTruthyAfter row (Z.of_nat k) st /\
    firstIndexOf (VString "PACK") (rowBelow sd (i + 1)) p /\
    processRow sd (Z.of_nat i) row (c, output) =
      Ok ({| woodType := wood;
             width := capturedWidth (firstCellBelow sd (i + 2));
             status := st;
             dimensions := Some (rowBelow sd (i + 1));
             packIndex := Some p |}, output).
Proof.
  intros Hh. apply header_row_iff in Hh. rewrite (processRow_header _ _ _ _ _ Hh).
  destruct (find_findIndex isWoodCell row 0)
    as [(k & x & Hk & Px & Hlt & Hf & _) | (_ & Hf & _)];
    [|rewrite Hf in Hh; discriminate].
  rewrite Hf. unfold enterSection.
  rewrite (findIndex_of_found row k x Hk Px Hlt).
  replace (Z.of_nat i + 1) with (Z.of_nat (i + 1)) by lia.
  replace (Z.of_nat i + 2) with (Z.of_nat (i + 2)) by lia.
  rewrite row_at_nat, first_cell_at_nat. fold (rowBelow sd (i + 1)).
  exists k, x, (findNextNonEmptyCell row (Z.of_nat k)),
    (findIndex (fun cell => strictEquals cell (VString "PACK")) (rowBelow sd (i + 1))).
  split; [assumption|]. split; [now apply isWoodCell_spec|].
  split. { intros j y Hj Hy Hm. apply isWoodCell_spec in Hm.
           rewrite (Hlt j y Hj Hy) in Hm. discriminate. }
  split; [apply findNextNonEmptyCell_spec|].
  split; [now apply findIndex_firstIndexOf|].
  reflexivity.
Qed.

(** C3. A row with a cell that matches the wood-type pattern replaces the
    whole context at once: [woodType] is the first such cell, [dimensions]
    the next row (no cells when the sheet ends there), [width] the first cell
    of the row two below (the empty string when that cell is not there or
    falsy), [status] the next truthy cell after the matched one ([null] when
    there is none), [packIndex] the position of the first "PACK" of the new
    dimensions (-1 when there is none).  The output is left as it was and
    the width update of ordinary rows is not run. *)
Theorem header_row_replaces_context (sd : sheetData) (i : nat) (row : array)
        (c : context) (output : list item) :
  isHeaderRow row ->
  exists (k : nat) (wood st : value) (p : Z),
    row !! k = Some wood /\
    hasMatch WOOD_PATTERN (ToString wood) /\
    (forall (j : nat) y, (j < k)%nat -> row !! j = Some y ->
                         ~ hasMatch WOOD_PATTERN (ToString y)) /\
    firstTruthyAfter row (Z.of_nat k) st /\
    firstIndexOf (VString "PACK") (rowBelow sd (i + 1)) p /\
    processRow sd (Z.of_nat i) row (c, output) =
      Ok ({| woodType := wood;
             width := capturedWidth (firstCellBelow sd (i + 2));
             status := st;
             dimensions := Some (rowBelow sd (i + 1));
             packIndex := Some p |}, output).
Proof. apply enterSection_spec. Qed.

Lemma header_row_replaces_context_witness :
  exists (k : nat) (wood st : value) (p : Z),
    [VString EmptyString; VString "redwood"; VString "V"] !! k = Some wood /\
    hasMatch WOOD_PATTERN (ToString wood) /\
    (forall (j : nat) y, (j < k)%nat ->
        [VString EmptyString; VString "redwood"; VString "V"] !! j = Some y ->
        ~ hasMatch WOOD_PATTERN (ToString y)) /\
    firstTruthyAfter [VString EmptyString; VString "redwood"; VString "V"] (Z.of_nat k) st /\
    firstIndexOf (VString "PACK") (rowBelow sectionSheet (0 + 1)) p /\
    processRow sectionSheet (Z.of_nat 0)
      [VString EmptyString; VString "redwood"; VString "V"] (initialContext, []) =
      Ok ({| woodType := wood;
             width := capturedWidth (firstCellBelow sectionSheet (0 + 2));
             status := st;
             dimensions := Some (rowBelow sectionSheet (0 + 1));
             packIndex := Some p |}, []).
Proof.
  apply (header_row_replaces_context sectionSheet 0 _ initialContext []).
  apply header_row_iff. reflexivity.
Defined.

(** ** Cells whose text matches a pattern of the source are truthy *)

Lemma matching_cell_truthy (p : RegExp.regex) (v : value) :
  RegExp.test p "undefined" = false -> RegExp.test p "null" = false ->
  RegExp.test p "true" = false -> RegExp.test p "false" = false ->
  RegExp.test p "0" = false -> RegExp.test p "NaN" = false ->
  RegExp.test p EmptyString = false ->
  RegExp.test p (ToString v) = true -> truthy v = true.
Proof.
  intros U N T F Z0 NaN E H.
  destruct v as [| |[|]|r|s]; cbn [ToString truthy] in *; try congruence.
  - apply andb_true_iff. split; apply negb_true_iff.
    + destruct (String.eqb_spec r "0") as [->|]; [congruence | reflexivity].
    + destruct (String.eqb_spec r "NaN") as [->|]; [congruence | reflexivity].
  - apply negb_true_iff.
    destruct (String.eqb_spec s EmptyString) as [->|]; [congruence | reflexivity].
Qed.

Lemma widthCellMatches_iff (w : value) :
  widthCellMatches w <-> hasMatch WIDTH_PATTERN (ToString w).
Proof.
  unfold widthCellMatches. split; [tauto|]. intros H. split; [|exact H].
  apply test_spec in H. revert H. now apply matching_cell_truthy.
Qed.

Lemma packCellMatches_iff (row : array) (c : context) :
  packCellMatches row c <-> hasMatch PACK_ID_PATTERN (ToString (at_key row (packIndex c))).
Proof.
  unfold packCellMatches. split; [tauto|]. intros H. split; [|exact H].
  apply test_spec in H. revert H. now apply matching_cell_truthy.
Qed.

(** ** Ordinary rows *)

Lemma not_header_find (row : array) :
  ~ isHeaderRow row -> truthy (find isWoodCell row) = false.
Proof.
  rewrite header_row_iff. now destruct (truthy (find isWoodCell row)).
Qed.

Lemma sameSection_set_width (w : value) (c : context) : sameSection c (set_width w c).
Proof. now repeat split. Qed.

Lemma sameSection_refl (c : context) : sameSection c c.
Proof. now repeat split. Qed.


(** The context an ordinary row leaves: only the width may differ. *)
Lemma width_update_frame (sd : sheetData) (i : nat) (c : context) :
  let w := firstCellBelow sd (i + 1) in
  let c' := if isWidthCell (first_cell_at sd (Z.of_nat i + 1))
            then set_width (first_cell_at sd (Z.of_nat i + 1)) c else c in
  sameSection c c' /\
  (widthCellMatches w -> width c' = w) /\
  (~ widthCellMatches w -> width c' = width c).
Proof.
  cbn zeta. replace (Z.of_nat i + 1) with (Z.of_nat (i + 1)) by lia.
  rewrite first_cell_at_nat.
  destruct (isWidthCell (firstCellBelow sd (i + 1))) eqn:W.
  - apply isWidthCell_spec in W. split; [apply sameSection_set_width|]. split; tauto.
  - assert (~ widthCellMatches (firstCellBelow sd (i + 1)))
      by (rewrite <- isWidthCell_spec; congruence).
    split; [apply sameSection_refl|]. split; tauto.
Qed.

(** C5. On a row that is not a section header, [woodType], [status],
    [dimensions] and [packIndex] stay as they are, and [width] becomes the
    first cell of the next row exactly when the text of that cell matches the
    width pattern.  The row either completes in this way or is a data row
    whose record cannot be built, which ends the walk. *)
Theorem non_header_row_frame (sd : sheetData) (i : nat) (row : array)
        (c : context) (output : list item) :
  ~ isHeaderRow row ->
  match processRow sd (Z.of_nat i) row (c, output) with
  | Ok (c', _) =>
      sameSection c c' /\
      (hasMatch WIDTH_PATTERN (ToString (firstCellBelow sd (i + 1))) ->
       width c' = firstCellBelow sd (i + 1)) /\
      (~ hasMatch WIDTH_PATTERN (ToString (firstCellBelow sd (i + 1))) ->
       width c' = width c)
  | Throw _ => packCellMatches row c /\ getItemObject row c = Throw TypeError
  end.
Proof.
  intros Hn. apply not_header_find in Hn.
  pose proof (width_update_frame sd i c) as F. cbn zeta in F.
  rewrite widthCellMatches_iff in F.
  destruct (isDataRow row c) eqn:D.
  - rewrite (processRow_data _ _ _ _ _ Hn D).
    destruct (getItemObject row c) as [it|e] eqn:G.
    + exact F.
    + split; [now apply isDataRow_spec | apply throw_is_TypeError].
  - rewrite (processRow_plain _ _ _ _ _ Hn D). exact F.
Qed.

Lemma non_header_row_frame_witness :
  match processRow sectionSheet (Z.of_nat 1)
          [VString "PACK"; VString "100"; VString "200"] (sectionContext, []) with
  | Ok (c', _) =>
      sameSection sectionContext c' /\
      (hasMatch WIDTH_PATTERN (ToString (firstCellBelow sectionSheet (1 + 1))) ->
       width c' = firstCellBelow sectionSheet (1 + 1)) /\
      (~ hasMatch WIDTH_PATTERN (ToString (firstCellBelow sectionSheet (1 + 1))) ->
       width c' = width sectionContext)
  | Throw _ =>
      packCellMatches [VString "PACK"; VString "100"; VString "200"] sectionContext /\
      getItemObject [VString "PACK"; VString "100"; VString "200"] sectionContext
      = Throw TypeError
  end.
Proof.
  apply (non_header_row_frame sectionSheet 1 _ sectionContext []).
  rewrite header_row_iff. vm_compute. discriminate.
Defined.

(** ** Data rows *)

(** C1, as amended.  On a row that is not a section header, under a context
    a header has set whose status is a string, one record is added to the
    output if the cell at [packIndex] is truthy and its text matches the
    pack-id pattern, and none otherwise. *)
Theorem data_row_emission (sd : sheetData) (i : nat) (row : array)
        (c : context) (output : list item) (s : string) (d : array) :
  ~ isHeaderRow row ->
  status c = VString s ->
  dimensions c = Some d ->
  exists c' emitted,
    processRow sd (Z.of_nat i) row (c, output) = Ok (c', output ++ emitted) /\
    (packCellMatches row c <-> exists it, emitted = [it]) /\
    (packCellMatches row c -> exists it, emitted = [it] /\ getItemObject row c = Ok it) /\
    (~ packCellMatches row c -> emitted = []).
Proof.
  intros Hn Hs Hd. apply not_header_find in Hn.
  destruct (isDataRow row c) eqn:D.
  - rewrite (processRow_data _ _ _ _ _ Hn D).
    destruct (getItemObject_ok row c s d Hs Hd) as [it G]. rewrite G.
    apply isDataRow_spec in D.
    eexists _, [it]. split; [reflexivity|].
    split; [split; eauto|]. split; [eauto | tauto].
  - rewrite (processRow_plain _ _ _ _ _ Hn D).
    assert (ND : ~ packCellMatches row c) by (rewrite <- isDataRow_spec; congruence).
    eexists _, []. split; [now rewrite app_nil_r|].
    split; [split; [tauto | intros [it Hit]; discriminate]|]. split; tauto.
Qed.

Lemma data_row_emission_witness :
  exists c' emitted,
    processRow sectionSheet (Z.of_nat 3)
      [VString "20231005.2"; VString EmptyString; VString "150"] (sectionContext, [])
    = Ok (c', [] ++ emitted) /\
    (packCellMatches [VString "20231005.2"; VString EmptyString; VString "150"]
       sectionContext <-> exists it, emitted = [it]) /\
    (packCellMatches [VString "20231005.2"; VString EmptyString; VString "150"]
       sectionContext ->
     exists it, emitted = [it] /\
       getItemObject [VString "20231005.2"; VString EmptyString; VString "150"]
         sectionContext = Ok it) /\
    (~ packCellMatches [VString "20231005.2"; VString EmptyString; VString "150"]
       sectionContext -> emitted = []).
Proof.
  apply (data_row_emission sectionSheet 3 _ sectionContext [] "V"
           [VString "PACK"; VString "100"; VString "200"]).
  - rewrite header_row_iff. vm_compute. discriminate.
  - reflexivity.
  - reflexivity.
Defined.

(** The claim C1 without its amendments fails: a row that holds a pack id at
    [packIndex] and a wood type is taken as a header and adds no record; and
    under a header that left the status [null], a row whose pack id matches
    makes the scan throw, so that no record is added either. *)
Lemma data_row_emission_counterexample :
  (exists c c',
      forEachRow twoHeadersSheet (take 3 twoHeadersSheet) 0 (initialContext, []) = Ok (c, [])
      /\ packIndex c = Some 0
      /\ packCellMatches [VString "20231001.5"; VString "whitewood"; VString "IV"] c
      /\ processRow twoHeadersSheet 3
           [VString "20231001.5"; VString "whitewood"; VString "IV"] (c, []) = Ok (c', [])
      /\ processWorkbook (book_of [("Sheet1", twoHeadersSheet)]) = Ok [])
  /\
  (exists c,
      forEachRow bareHeaderSheet (take 3 bareHeaderSheet) 0 (initialContext, []) = Ok (c, [])
      /\ packIndex c = Some 0
      /\ packCellMatches [VString "20231001.5"; VString "150"] c
      /\ processRow bareHeaderSheet 3 [VString "20231001.5"; VString "150"] (c, [])
         = Throw TypeError
      /\ processWorkbook (book_of [("Sheet1", bareHeaderSheet)]) = Throw TypeError).
Proof.
  split.
  - eexists _, _. split; [vm_compute; reflexivity|].
    split; [reflexivity|]. split; [apply isDataRow_spec; vm_compute; reflexivity|].
    split; vm_compute; reflexivity.
  - eexists. split; [vm_compute; reflexivity|].
    split; [reflexivity|]. split; [apply isDataRow_spec; vm_compute; reflexivity|].
    split; vm_compute; reflexivity.
Qed.

(** ** The id of a record *)

Lemma ID_PREFIXES_redwood : ID_PREFIXES_get (VString "redwood") = VString "R1".
Proof. reflexivity. Qed.

Lemma ID_PREFIXES_whitewood : ID_PREFIXES_get (VString "whitewood") = VString "W1".
Proof. reflexivity. Qed.

Lemma findNextNonEmptyCell_self_equal (a : array) (i : Z) :
  strictEquals (findNextNonEmptyCell a i) (findNextNonEmptyCell a i) = true.
Proof.
  destruct (findNextNonEmptyCell_spec a i) as [(j & _ & _ & _ & Ht & _) | (-> & _)];
    [now apply strictEquals_refl | reflexivity].
Qed.

(** C2, as amended.  Under a context a header has set (its wood type a
    cell that matched the wood-type pattern) whose status is a string, the
    record of a row is built without error, and its [id] is the
    concatenation of the texts of the prefix of the wood type, of the width,
    of the entry of the dimensions row at [amountIndex] (the position of the
    first cell of the row equal to the amount, or -1) and of a final "0",
    all "." and "*" then removed.  When [amountIndex] is -1 the lookup does
    not fail: the missing entry takes part as the text "undefined". *)
Theorem item_id_construction (row : array) (c : context) (s : string) (d : array) :
  hasMatch WOOD_PATTERN (ToString (woodType c)) ->
  status c = VString s ->
  dimensions c = Some d ->
  exists it amountIndex,
    getItemObject row c = Ok it /\
    firstIndexOf (amount it) row amountIndex /\
    id it = Str.without "*" (Str.without "."
              (ToString (ID_PREFIXES_get (woodType c)) +:+ ToString (width c)
               +:+ ToString (at_index d amountIndex) +:+ "0")) /\
    (amountIndex = -1 ->
     id it = Str.without "*" (Str.without "."
               (ToString (ID_PREFIXES_get (woodType c)) +:+ ToString (width c)
                +:+ "undefined" +:+ "0"))) /\
    Str.occurs "." (id it) = false /\
    Str.occurs "*" (id it) = false.
Proof.
  intros _ Hs Hd. destruct (getItemObject_ok row c s d Hs Hd) as [it G].
  pose proof G as G'. unfold getItemObject, dimensions_at in G'. rewrite Hd in G'.
  cbn [bind] in G'. destruct (normalizeStatus (status c)) as [st|]; [|discriminate].
  cbn [bind] in G'. injection G' as <-. cbn [id amount].
  set (amt := findNextNonEmptyCell row (index_to_number (packIndex c))).
  set (n := findIndex (fun cell => strictEquals cell amt) row).
  eexists _, n. split; [exact G|].
  split; [apply findIndex_self_equal, findNextNonEmptyCell_self_equal|].
  change "*" with (String "*"%char EmptyString).
  change "." with (String "."%char EmptyString).
  rewrite !replaceAll_char. unfold idTemplate.
  split; [reflexivity|].
  split; [intros E; unfold n, amt in E; cbn [id]; now rewrite E|].
  cbn [id]. split; [apply without_keeps_absent |]; apply without_occurs.
Qed.

Lemma item_id_construction_witness :
  exists it amountIndex,
    getItemObject [VString "20231005.2"; VString EmptyString; VString "150"] sectionContext
    = Ok it /\
    firstIndexOf (amount it)
      [VString "20231005.2"; VString EmptyString; VString "150"] amountIndex /\
    id it = Str.without "*" (Str.without "."
              (ToString (ID_PREFIXES_get (woodType sectionContext))
               +:+ ToString (width sectionContext)
               +:+ ToString (at_index [VString "PACK"; VString "100"; VString "200"]
                               amountIndex) +:+ "0")) /\
    (amountIndex = -1 ->
     id it = Str.without "*" (Str.without "."
               (ToString (ID_PREFIXES_get (woodType sectionContext))
                +:+ ToString (width sectionContext) +:+ "undefined" +:+ "0"))) /\
    Str.occurs "." (id it) = false /\
    Str.occurs "*" (id it) = false.
Proof.
  apply (item_id_construction _ sectionContext "V");
    [apply test_spec; vm_compute; reflexivity | reflexivity | reflexivity].
Defined.

(** The claim C2 without its amendments fails: the [id] ends with a "0" that
    the concatenation of prefix, width and dimension label does not have, and
    a missing dimension label leaves the text "undefined" in it. *)
Lemma item_id_counterexample :
  (exists it,
      processWorkbook (book_of [("Sheet1", sectionSheet)]) = Ok [it] /\
      id it = "R150602000" /\
      id it <> spec_id "R1" "50*60" "200")
  /\
  (exists it,
      processWorkbook (book_of [("Sheet1", loneIdSheet)]) = Ok [it] /\
      id it = "R15060undefined0" /\
      id it <> spec_id "R1" "50*60" EmptyString).
Proof.
  split; eexists; (split; [vm_compute; reflexivity|]);
    (split; [reflexivity | vm_compute; discriminate]).
Qed.

(** ** The walk over rows and sheets *)

Lemma forEachRow_app (sd : sheetData) (l1 l2 : list array) (i : Z) (st : state) :
  forEachRow sd (l1 ++ l2) i st =
  try st' <- forEachRow sd l1 i st in forEachRow sd l2 (i + Z.of_nat (length l1)) st'.
Proof.
  revert i st; induction l1 as [|r l1 IH]; intros i st.
  - cbn. now rewrite Z.add_0_r.
  - cbn [app forEachRow length]. destruct (processRow sd i r st) as [st1|e]; cbn [bind]; [|reflexivity].
    rewrite IH. replace (i + 1 + Z.of_nat (length l1)) with (i + Z.of_nat (S (length l1))) by lia.
    reflexivity.
Qed.

Lemma forEachSheet_app (wb : workbook) (n1 n2 : list string) (st : state) :
  forEachSheet wb (n1 ++ n2) st =
  try st' <- forEachSheet wb n1 st in forEachSheet wb n2 st'.
Proof.
  revert st; induction n1 as [|n n1 IH]; intros st; [reflexivity|].
  cbn [app forEachSheet]. destruct (processSheet (sheet_rows wb n) st); cbn [bind]; auto.
Qed.

Lemma isDataRow_packIndex (row : array) (c c' : context) :
  packIndex c' = packIndex c -> isDataRow row c' = isDataRow row c.
Proof. intros H. unfold isDataRow. now rewrite H. Qed.

(** Without a header row the pack index stays unset and nothing is emitted. *)
Lemma forEachRow_unset (sd : sheetData) (rows : list array) (i : Z)
      (c : context) (output : list item) :
  Forall (fun r => ~ isHeaderRow r) rows ->
  packIndex c = None ->
  exists c', forEachRow sd rows i (c, output) = Ok (c', output) /\ packIndex c' = None.
Proof.
  intros Hrows. revert i c. induction Hrows as [|r rows Hr _ IH]; intros i c Hp.
  - exists c. now split.
  - cbn [forEachRow].
    assert (D : isDataRow r c = false) by (unfold isDataRow; now rewrite Hp).
    rewrite (processRow_plain _ _ _ _ _ (not_header_find _ Hr) D). cbn [bind].
    apply IH. now destruct (isWidthCell _).
Qed.

Lemma forEachSheet_unset (wb : workbook) (names : list string)
      (c : context) (output : list item) :
  (forall n row, In n names -> In row (sheet_rows wb n) -> ~ isHeaderRow row) ->
  packIndex c = None ->
  exists c', forEachSheet wb names (c, output) = Ok (c', output) /\ packIndex c' = None.
Proof.
  revert c; induction names as [|n names IH]; intros c Hall Hp.
  - exists c. now split.
  - cbn [forEachSheet]. unfold processSheet.
    destruct (forEachRow_unset (sheet_rows wb n) (sheet_rows wb n) 0 c output)
      as (c1 & -> & Hp1); [|assumption|].
    + apply List.Forall_forall. intros row Hin. apply (Hall n row); [now left | assumption].
    + cbn [bind]. apply IH; [|assumption].
      intros m row Hm Hin. apply (Hall m row); [now right | assumption].
Qed.

(** C8. A workbook without a section-header row is processed without error
    and gives no record: the handler stores the empty list and raises no
    notice. *)
Theorem no_header_no_records (wb : workbook) (fileName : string) :
  (forall n row, In n (SheetNames wb) -> In row (sheet_rows wb n) -> ~ isHeaderRow row) ->
  processWorkbook wb = Ok [] /\
  handleFileUpload (Decoded fileName wb) =
    [SetData []; SetFileName fileName; ConsoleLog "File processed successfully!"] /\
  existsb is_alert (handleFileUpload (Decoded fileName wb)) = false.
Proof.
  intros Hall.
  assert (P : processWorkbook wb = Ok []).
  { unfold processWorkbook.
    destruct (forEachSheet_unset wb (SheetNames wb) initialContext [] Hall eq_refl)
      as (c' & -> & _). reflexivity. }
  split; [exact P|]. cbn [handleFileUpload]. rewrite P. split; reflexivity.
Qed.

Lemma no_header_no_records_witness :
  processWorkbook (book_of [("Sheet1", dataOnlySheet)]) = Ok [] /\
  handleFileUpload (Decoded "stock.xlsx" (book_of [("Sheet1", dataOnlySheet)])) =
    [SetData []; SetFileName "stock.xlsx"; ConsoleLog "File processed successfully!"] /\
  existsb is_alert
    (handleFileUpload (Decoded "stock.xlsx" (book_of [("Sheet1", dataOnlySheet)]))) = false.
Proof.
  apply (no_header_no_records (book_of [("Sheet1", dataOnlySheet)]) "stock.xlsx").
  intros n row [<-|[]] Hin. vm_compute in Hin. destruct Hin as [<-|[]].
  rewrite header_row_iff. vm_compute. discriminate.
Defined.

(** ** A header without a status *)

Lemma firstIndexOf_unique (v : value) (a : array) (p q : Z) :
  firstIndexOf v a p -> firstIndexOf v a q -> p = q.
Proof.
  intros [(Hp & Lp & Bp) | (-> & Np)] [(Hq & Lq & Bq) | (-> & Nq)].
  - destruct (Nat.lt_trichotomy (Z.to_nat p) (Z.to_nat q)) as [H|[H|H]]; [|lia|].
    + now destruct (Bq _ H).
    + now destruct (Bp _ H).
  - destruct Nq. eapply lookup_In; eauto.
  - destruct Np. eapply lookup_In; eauto.
  - reflexivity.
Qed.

Lemma headerWithoutStatus_header (hdr : array) : headerWithoutStatus hdr -> isHeaderRow hdr.
Proof.
  intros (k & wood & Hk & Hm & _). exists wood. split; [eapply lookup_In; eauto | assumption].
Qed.

Lemma header_null_status (sd : sheetData) (i : nat) (hdr : array)
      (c : context) (output : list item) :
  headerWithoutStatus hdr ->
  exists c' p,
    processRow sd (Z.of_nat i) hdr (c, output) = Ok (c', output) /\
    status c' = VNull /\
    packIndex c' = Some p /\
    firstIndexOf (VString "PACK") (rowBelow sd (i + 1)) p.
Proof.
  intros Hw. pose proof (headerWithoutStatus_header hdr Hw) as Hh.
  destruct Hw as (k & wood & Hk & Hm & Hfirst & Hafter).
  destruct (enterSection_spec sd i hdr c output Hh)
    as (k' & wood' & st & p & Hk' & Hm' & Hfirst' & Hst & Hp & ->).
  assert (k' = k) as ->.
  { destruct (Nat.lt_trichotomy k' k) as [H|[H|H]]; [|assumption|].
    - now destruct (Hfirst _ _ H Hk').
    - now destruct (Hfirst' _ _ H Hk). }
  eexists _, p. split; [reflexivity|]. cbn [status packIndex].
  split; [|split; [reflexivity | assumption]].
  destruct Hst as [(j & Hj & Hj0 & Hl & Ht & _) | (-> & _)]; [|reflexivity].
  rewrite <- (at_index_lookup hdr j st Hj0 Hl) in Ht.
  rewrite (Hafter j Hj) in Ht. discriminate.
Qed.

Lemma getItemObject_null_status (row : array) (c : context) :
  status c = VNull -> getItemObject row c = Throw TypeError.
Proof.
  intros Hs. apply getItemObject_not_string. intros s. rewrite Hs. discriminate.
Qed.

(** Once the status is [null], the first row that passes the test of a data
    row stops the walk. *)
Lemma forEachRow_null_status (sd : sheetData) (n : nat) :
  forall (rows : list array) (i : Z) (c : context) (output : list item) (row : array),
    status c = VNull ->
    rows !! n = Some row ->
    (forall (k : nat) r, (k <= n)%nat -> rows !! k = Some r -> ~ isHeaderRow r) ->
    isDataRow row c = true ->
    forEachRow sd rows i (c, output) = Throw TypeError.
Proof.
  induction n as [|n IH]; intros rows i c output row Hs Hn Hnh Hd;
    destruct rows as [|r rows]; try discriminate; cbn [forEachRow].
  - injection Hn as ->.
    rewrite (processRow_data _ _ _ _ _ (not_header_find _ (Hnh O row (le_n _) eq_refl)) Hd).
    now rewrite (getItemObject_null_status _ _ Hs).
  - pose proof (not_header_find _ (Hnh O r (Nat.le_0_l _) eq_refl)) as Hr.
    destruct (isDataRow r c) eqn:D.
    + rewrite (processRow_data _ _ _ _ _ Hr D).
      now rewrite (getItemObject_null_status _ _ Hs).
    + rewrite (processRow_plain _ _ _ _ _ Hr D). cbn [bind].
      apply (IH rows _ _ output row).
      * now destruct (isWidthCell _).
      * exact Hn.
      * intros k r' Hk Hr'. apply (Hnh (S k) r'); [lia | exact Hr'].
      * rewrite <- Hd. apply isDataRow_packIndex. now destruct (isWidthCell _).
Qed.

Lemma forEachRow_split (sd : sheetData) (rows : list array) (i : nat) (r : array)
      (st : state) :
  rows !! i = Some r ->
  forEachRow sd rows 0 st =
  try st1 <- forEachRow sd (take i rows) 0 st in
  try st2 <- processRow sd (Z.of_nat i) r st1 in
  forEachRow sd (drop (S i) rows) (Z.of_nat i + 1) st2.
Proof.
  intros H. rewrite <- (take_drop_middle rows i r H) at 1.
  rewrite forEachRow_app. rewrite length_take.
  apply lookup_lt_Some in H. rewrite Nat.min_l by lia. rewrite Z.add_0_l.
  reflexivity.
Qed.

(** C10. Emission is not total.  A workbook one of whose sheets has a header
    row without a truthy cell after the wood-type cell, and after it, with no
    header row in between, a row that passes the test of a data row, is not
    processed to the end: [normalizeStatus] is applied to the [null] status
    and the [TypeError] it throws ends [processWorkbook]. *)
Theorem null_status_stops_processing (wb : workbook) (pre post : list string)
        (name fileName : string) (i j : nat) (hdr row : array) :
  SheetNames wb = pre ++ name :: post ->
  sheet_rows wb name !! i = Some hdr ->
  headerWithoutStatus hdr ->
  (i < j)%nat ->
  (forall (k : nat) r, (i < k <= j)%nat -> sheet_rows wb name !! k = Some r ->
                       ~ isHeaderRow r) ->
  sheet_rows wb name !! j = Some row ->
  passesRecognition (rowBelow (sheet_rows wb name) (i + 1)) row ->
  processWorkbook wb = Throw TypeError /\
  handleFileUpload (Decoded fileName wb) =
    [ConsoleError "Error reading or processing the file:";
     Alert "Failed to process the Excel file."].
Proof.
  intros Hnames Hi Hw Hij Hnh Hj (p & Hp & Ht & Hm).
  set (sd := sheet_rows wb name) in *.
  assert (P : processWorkbook wb = Throw TypeError).
  { unfold processWorkbook. rewrite Hnames, forEachSheet_app.
    destruct (forEachSheet wb pre (initialContext, [])) as [[c0 out0]|e];
      [|destruct e; reflexivity].
    cbn [bind forEachSheet]. fold sd. unfold processSheet.
    rewrite (forEachRow_split sd sd i hdr _ Hi).
    destruct (forEachRow sd (take i sd) 0 (c0, out0)) as [[c1 out1]|e];
      [|destruct e; reflexivity].
    cbn [bind].
    destruct (header_null_status sd i hdr c1 out1 Hw) as (c2 & q & -> & Hs & Hq & Hq').
    cbn [bind].
    rewrite (forEachRow_null_status sd (j - S i) _ _ c2 out1 row Hs); [reflexivity| | |].
    - rewrite lookup_drop. replace (S i + (j - S i))%nat with j by lia. exact Hj.
    - intros k r Hk Hr. rewrite lookup_drop in Hr. apply (Hnh (S i + k)%nat r); [lia | exact Hr].
    - apply isDataRow_spec. unfold packCellMatches. rewrite Hq. cbn [at_key].
      rewrite (firstIndexOf_unique _ _ _ _ Hq' Hp). now split. }
  split; [exact P|]. cbn [handleFileUpload]. now rewrite P.
Qed.

Lemma null_status_stops_processing_witness :
  processWorkbook (book_of [("Sheet1", bareHeaderSheet)]) = Throw TypeError /\
  handleFileUpload (Decoded "stock.xlsx" (book_of [("Sheet1", bareHeaderSheet)])) =
    [ConsoleError "Error reading or processing the file:";
     Alert "Failed to process the Excel file."].
Proof.
  apply (null_status_stops_processing (book_of [("Sheet1", bareHeaderSheet)])
           [] [] "Sheet1" "stock.xlsx" 0 3
           [VString "redwood"] [VString "20231001.5"; VString "150"]).
  - reflexivity.
  - vm_compute. reflexivity.
  - exists O, (VString "redwood"). split; [reflexivity|].
    split; [apply test_spec; vm_compute; reflexivity|].
    split; [intros; lia|].
    intros m Hm. rewrite at_index_beyond; [reflexivity | cbn; lia].
  - lia.
  - intros k r Hk Hr. rewrite header_row_iff.
    destruct k as [|[|[|[|k]]]]; try lia; vm_compute in Hr; injection Hr as <-;
      vm_compute; discriminate.
  - vm_compute. reflexivity.
  - exists 0. split.
    + left. split; [lia|]. split; [vm_compute; reflexivity | intros; lia].
    + split; [reflexivity | apply test_spec; vm_compute; reflexivity].
Defined.

(** ** The context across rows and sheets *)





(** One ordinary row under a section whose status is a string. *)
Lemma processRow_in_section (sd : sheetData) (i : nat) (row : array)
      (c : context) (output : list item) (s : string) (d : array) :
  ~ isHeaderRow row ->
  status c = VString s ->
  dimensions c = Some d ->
  exists c' emitted,
    processRow sd (Z.of_nat i) row (c, output) = Ok (c', output ++ emitted) /\
    sameSection c c' /\
    (widthCellMatches (firstCellBelow sd (i + 1)) -> width c' = firstCellBelow sd (i + 1)) /\
    (~ widthCellMatches (firstCellBelow sd (i + 1)) -> width c' = width c) /\
    (isDataRow row c = true -> exists it, emitted = [it] /\ getItemObject row c = Ok it).
Proof.
  intros Hn Hs Hd. apply not_header_find in Hn.
  destruct (width_update_frame sd i c) as (F1 & F2 & F3).
  destruct (isDataRow row c) eqn:D.
  - rewrite (processRow_data _ _ _ _ _ Hn D).
    destruct (getItemObject_ok row c s d Hs Hd) as [it G]. rewrite G.
    eexists _, [it]. split; [reflexivity|].
    split; [exact F1|]. split; [exact F2|]. split; [exact F3|]. intros _. eauto.
  - rewrite (processRow_plain _ _ _ _ _ Hn D).
    eexists _, []. split; [now rewrite app_nil_r|].
    split; [exact F1|]. split; [exact F2|]. split; [exact F3|]. discriminate.
Qed.




(** * Further properties of the code *)

(** ** When the walk succeeds and when it throws *)

Lemma firstTruthyAfter_unique (a : array) (i : Z) (v w : value) :
  firstTruthyAfter a i v -> firstTruthyAfter a i w -> v = w.
Proof.
  intros [(j & Hj & Hj0 & Lj & Tj & Bj) | (-> & Nj)]
         [(k & Hk & Hk0 & Lk & Tk & Bk) | (-> & Nk)].
  - destruct (Z.lt_trichotomy j k) as [H|[H|H]].
    + rewrite <- (at_index_lookup a j v Hj0 Lj) in Tj.
      rewrite (Bk j (conj Hj H)) in Tj. discriminate.
    + subst k. congruence.
    + rewrite <- (at_index_lookup a k w Hk0 Lk) in Tk.
      rewrite (Bj k (conj Hk H)) in Tk. discriminate.
  - rewrite <- (at_index_lookup a j v Hj0 Lj) in Tj. rewrite (Nk j Hj) in Tj. discriminate.
  - rewrite <- (at_index_lookup a k w Hk0 Lk) in Tk. rewrite (Nj k Hk) in Tk. discriminate.
  - reflexivity.
Qed.

Lemma firstWoodCell_unique (row : array) (k k' : nat) (w w' : value) :
  firstWoodCell row k w -> firstWoodCell row k' w' -> k = k' /\ w = w'.
Proof.
  intros (Hk & Hm & Hb) (Hk' & Hm' & Hb').
  destruct (Nat.lt_trichotomy k k') as [H|[H|H]].
  - now destruct (Hb' _ _ H Hk).
  - subst k'. split; [reflexivity | congruence].
  - now destruct (Hb _ _ H Hk').
Qed.

(** The context a header row leaves, in the words of the vocabulary. *)
Lemma header_row_step (sd : sheetData) (i : nat) (hdr : array)
      (c : context) (output : list item) :
  isHeaderRow hdr ->
  exists (k : nat) (wood st : value) (p : Z) (c' : context),
    firstWoodCell hdr k wood /\
    firstTruthyAfter hdr (Z.of_nat k) st /\
    firstIndexOf (VString "PACK") (rowBelow sd (i + 1)) p /\
    processRow sd (Z.of_nat i) hdr (c, output) = Ok (c', output) /\
    woodType c' = wood /\ status c' = st /\
    dimensions c' = Some (rowBelow sd (i + 1)) /\ packIndex c' = Some p /\
    width c' = capturedWidth (firstCellBelow sd (i + 2)).
Proof.
  intros Hh.
  destruct (enterSection_spec sd i hdr c output Hh)
    as (k & wood & st & p & Hk & Hm & Hb & Hst & Hp & E).
  exists k, wood, st, p. eexists. split; [now split|].
  split; [exact Hst|]. split; [exact Hp|]. split; [exact E|]. now repeat split.
Qed.

Lemma not_data_row_unset (row : array) (c : context) :
  packIndex c = None -> isDataRow row c = false.
Proof. intros Hp. unfold isDataRow. now rewrite Hp. Qed.

Lemma processRow_ready (sd : sheetData) (i : nat) (row : array)
      (c : context) (output : list item) :
  statusIsString row ->
  readyContext c ->
  exists c' output',
    processRow sd (Z.of_nat i) row (c, output) = Ok (c', output') /\ readyContext c'.
Proof.
  intros Hrow Hc. destruct (header_row_dec row) as [Hh|Hn].
  - destruct (header_row_step sd i row c output Hh)
      as (k & wood & st & p & c' & Hw & Hst & _ & E & _ & Hs & Hd & _).
    destruct (Hrow k wood st Hw Hst) as [s ->].
    exists c', output. split; [exact E|]. right. split; eauto.
  - destruct Hc as [Hp | ([s Hs] & [d Hd])].
    + rewrite (processRow_plain _ _ _ _ _ (not_header_find _ Hn) (not_data_row_unset _ _ Hp)).
      eexists _, _. split; [reflexivity|]. left. now destruct (isWidthCell _).
    + destruct (processRow_in_section sd i row c output s d Hn Hs Hd)
        as (c' & emitted & E & (_ & Hs' & Hd' & _) & _).
      eexists _, _. split; [exact E|]. right.
      split; [exists s | exists d]; congruence.
Qed.

Lemma forEachRow_ready (sd : sheetData) (rows : list array) :
  forall (i : nat) (c : context) (output : list item),
    Forall statusIsString rows ->
    readyContext c ->
    exists c' output',
      forEachRow sd rows (Z.of_nat i) (c, output) = Ok (c', output') /\ readyContext c'.
Proof.
  induction rows as [|r rows IH]; intros i c output Hrows Hc.
  - now exists c, output.
  - apply Forall_cons in Hrows as [Hr Hrows]. cbn [forEachRow].
    destruct (processRow_ready sd i r c output Hr Hc) as (c1 & out1 & -> & Hc1).
    cbn [bind]. replace (Z.of_nat i + 1) with (Z.of_nat (S i)) by lia.
    now apply IH.
Qed.

Lemma forEachSheet_ready (wb : workbook) (names : list string) :
  forall (c : context) (output : list item),
    (forall n row, In n names -> In row (sheet_rows wb n) -> statusIsString row) ->
    readyContext c ->
    exists c' output',
      forEachSheet wb names (c, output) = Ok (c', output') /\ readyContext c'.
Proof.
  induction names as [|n names IH]; intros c output Hall Hc.
  - now exists c, output.
  - cbn [forEachSheet]. unfold processSheet.
    destruct (forEachRow_ready (sheet_rows wb n) (sheet_rows wb n) 0 c output)
      as (c1 & out1 & E & Hc1); [| exact Hc |].
    + apply List.Forall_forall. intros row Hin. apply (Hall n row); [now left | exact Hin].
    + change (Z.of_nat 0) with 0 in E. rewrite E. cbn [bind].
      apply IH; [|exact Hc1]. intros m row Hm Hin. apply (Hall m row); [now right | exact Hin].
Qed.

(** X1. [processWorkbook] does not throw when, in every row of the sheets it
    walks, the next truthy cell after the first wood-type cell is a string:
    the handler then stores the records and the file name, whatever the
    state was, and raises no notice. *)
Theorem string_statuses_never_throw (wb : workbook) (name : string)
        (st : componentState) :
  (forall n row, In n (SheetNames wb) -> In row (sheet_rows wb n) -> statusIsString row) ->
  exists output,
    processWorkbook wb = Ok output /\
    existsb is_alert (handleFileUpload (Decoded name wb)) = false /\
    runEffects st (handleFileUpload (Decoded name wb)) =
      {| data := output; fileName := name |}.
Proof.
  intros Hall.
  destruct (forEachSheet_ready wb (SheetNames wb) initialContext [] Hall (or_introl eq_refl))
    as (c' & output & E & _).
  assert (P : processWorkbook wb = Ok output) by (unfold processWorkbook; now rewrite E).
  exists output. split; [exact P|]. cbn [handleFileUpload]. rewrite P. split; reflexivity.
Qed.

Lemma statusIsString_sectionSheet :
  forall n row, In n (SheetNames (book_of [("Sheet1", sectionSheet)])) ->
                In row (sheet_rows (book_of [("Sheet1", sectionSheet)]) n) ->
                statusIsString row.
Proof.
  intros n row [<-|[]] Hin. vm_compute in Hin.
  assert (Hplain : forall r, isWoodCell (find isWoodCell r) = false -> statusIsString r).
  { intros r Hr k wood st (Hk & Hm & _) _. exfalso.
    destruct (find_findIndex isWoodCell r 0) as [(j & x & _ & Px & _ & Hf & _) | (Hno & _)].
    - rewrite Hf in Hr. congruence.
    - apply isWoodCell_spec in Hm. rewrite (Hno wood (lookup_In _ _ _ Hk)) in Hm.
      discriminate. }
  destruct Hin as [<-|[<-|[<-|[<-|[]]]]]; try (apply Hplain; reflexivity).
  intros k wood st Hw Hst.
  assert (Hw1 : firstWoodCell [VString EmptyString; VString "redwood"; VString "V"]
                  1 (VString "redwood")).
  { split; [reflexivity|]. split; [apply test_spec; reflexivity|].
    intros j y Hj Hy Hm. destruct j as [|j]; [|lia]. injection Hy as <-.
    apply test_spec in Hm. discriminate. }
  destruct (firstWoodCell_unique _ _ _ _ _ Hw Hw1) as [-> ->].
  exists "V". apply (firstTruthyAfter_unique _ _ _ _ Hst).
  left. exists 2. repeat split; try lia; try reflexivity.
Qed.

Lemma string_statuses_never_throw_witness :
  exists output,
    processWorkbook (book_of [("Sheet1", sectionSheet)]) = Ok output /\
    existsb is_alert
      (handleFileUpload (Decoded "stock.xlsx" (book_of [("Sheet1", sectionSheet)]))) = false /\
    runEffects initialState
      (handleFileUpload (Decoded "stock.xlsx" (book_of [("Sheet1", sectionSheet)]))) =
      {| data := output; fileName := "stock.xlsx" |}.
Proof.
  apply (string_statuses_never_throw (book_of [("Sheet1", sectionSheet)])
           "stock.xlsx" initialState).
  exact statusIsString_sectionSheet.
Defined.

Lemma headerWithOddStatus_header (hdr : array) : headerWithOddStatus hdr -> isHeaderRow hdr.
Proof.
  intros (k & wood & st & (Hk & Hm & _) & _). exists wood.
  split; [eapply lookup_In; eauto | exact Hm].
Qed.

Lemma header_odd_status (sd : sheetData) (i : nat) (hdr : array)
      (c : context) (output : list item) :
  headerWithOddStatus hdr ->
  exists c' p,
    processRow sd (Z.of_nat i) hdr (c, output) = Ok (c', output) /\
    (forall s, status c' <> VString s) /\
    packIndex c' = Some p /\
    firstIndexOf (VString "PACK") (rowBelow sd (i + 1)) p.
Proof.
  intros Hw. pose proof (headerWithOddStatus_header hdr Hw) as Hh.
  destruct Hw as (k & wood & st & Hfw & Hst & Hodd).
  destruct (header_row_step sd i hdr c output Hh)
    as (k' & wood' & st' & p & c' & Hfw' & Hst' & Hp & E & _ & Hs & _ & Hpi & _).
  destruct (firstWoodCell_unique _ _ _ _ _ Hfw Hfw') as [<- <-].
  rewrite (firstTruthyAfter_unique _ _ _ _ Hst' Hst) in Hs.
  exists c', p. split; [exact E|]. split; [now rewrite Hs|]. now split.
Qed.

(** Under a status that is not a string, the first row that passes the test
    of a data row stops the walk. *)
Lemma forEachRow_odd_status (sd : sheetData) (n : nat) :
  forall (rows : list array) (i : Z) (c : context) (output : list item) (row : array),
    (forall s, status c <> VString s) ->
    rows !! n = Some row ->
    (forall (k : nat) r, (k <= n)%nat -> rows !! k = Some r -> ~ isHeaderRow r) ->
    isDataRow row c = true ->
    forEachRow sd rows i (c, output) = Throw TypeError.
Proof.
  induction n as [|n IH]; intros rows i c output row Hs Hn Hnh Hd;
    destruct rows as [|r rows]; try discriminate; cbn [forEachRow].
  - injection Hn as ->.
    rewrite (processRow_data _ _ _ _ _ (not_header_find _ (Hnh O row (le_n _) eq_refl)) Hd).
    now rewrite (getItemObject_not_string _ _ Hs).
  - pose proof (not_header_find _ (Hnh O r (Nat.le_0_l _) eq_refl)) as Hr.
    destruct (isDataRow r c) eqn:D.
    + rewrite (processRow_data _ _ _ _ _ Hr D).
      now rewrite (getItemObject_not_string _ _ Hs).
    + rewrite (processRow_plain _ _ _ _ _ Hr D). cbn [bind].
      apply (IH rows _ _ output row).
      * now destruct (isWidthCell _).
      * exact Hn.
      * intros k r' Hk Hr'. apply (Hnh (S k) r'); [lia | exact Hr'].
      * rewrite <- Hd. apply isDataRow_packIndex. now destruct (isWidthCell _).
Qed.

(** X2. Not only a missing status stops the walk.  When the cell a header
    row captures as status is a number or a boolean, [status.includes] is no
    function: the first row after that header, with no header in between,
    that passes the test of a data row ends [processWorkbook] with a
    [TypeError].  The handler then raises the failure notice and leaves the
    data and the file name of the state as they were. *)
Theorem odd_status_stops_processing (wb : workbook) (pre post : list string)
        (name uploaded : string) (i j : nat) (hdr row : array) (st : componentState) :
  SheetNames wb = pre ++ name :: post ->
  sheet_rows wb name !! i = Some hdr ->
  headerWithOddStatus hdr ->
  (i < j)%nat ->
  (forall (k : nat) r, (i < k <= j)%nat -> sheet_rows wb name !! k = Some r ->
                       ~ isHeaderRow r) ->
  sheet_rows wb name !! j = Some row ->
  passesRecognition (rowBelow (sheet_rows wb name) (i + 1)) row ->
  processWorkbook wb = Throw TypeError /\
  existsb is_alert (handleFileUpload (Decoded uploaded wb)) = true /\
  runEffects st (handleFileUpload (Decoded uploaded wb)) = st.
Proof.
  intros Hnames Hi Hw Hij Hnh Hj (p & Hp & Ht & Hm).
  set (sd := sheet_rows wb name) in *.
  assert (P : processWorkbook wb = Throw TypeError).
  { unfold processWorkbook. rewrite Hnames, forEachSheet_app.
    destruct (forEachSheet wb pre (initialContext, [])) as [[c0 out0]|e];
      [|destruct e; reflexivity].
    cbn [bind forEachSheet]. fold sd. unfold processSheet.
    rewrite (forEachRow_split sd sd i hdr _ Hi).
    destruct (forEachRow sd (take i sd) 0 (c0, out0)) as [[c1 out1]|e];
      [|destruct e; reflexivity].
    cbn [bind].
    destruct (header_odd_status sd i hdr c1 out1 Hw) as (c2 & q & -> & Hs & Hq & Hq').
    cbn [bind].
    rewrite (forEachRow_odd_status sd (j - S i) _ _ c2 out1 row Hs); [reflexivity| | |].
    - rewrite lookup_drop. replace (S i + (j - S i))%nat with j by lia. exact Hj.
    - intros k r Hk Hr. rewrite lookup_drop in Hr. apply (Hnh (S i + k)%nat r); [lia | exact Hr].
    - apply isDataRow_spec. unfold packCellMatches. rewrite Hq. cbn [at_key].
      rewrite (firstIndexOf_unique _ _ _ _ Hq' Hp). now split. }
  split; [exact P|]. cbn [handleFileUpload]. rewrite P. split; reflexivity.
Qed.

Lemma odd_status_stops_processing_witness :
  processWorkbook (book_of [("Sheet1", numberStatusSheet)]) = Throw TypeError /\
  existsb is_alert
    (handleFileUpload (Decoded "stock.xlsx" (book_of [("Sheet1", numberStatusSheet)]))) = true /\
  runEffects initialState
    (handleFileUpload (Decoded "stock.xlsx" (book_of [("Sheet1", numberStatusSheet)])))
  = initialState.
Proof.
  apply (odd_status_stops_processing (book_of [("Sheet1", numberStatusSheet)])
           [] [] "Sheet1" "stock.xlsx" 0 3
           [VString "redwood"; VNumber "5"] [VString "20231001.5"; VString "150"]
           initialState).
  - reflexivity.
  - vm_compute. reflexivity.
  - exists O, (VString "redwood"), (VNumber "5"). split.
    + split; [reflexivity|]. split; [apply test_spec; vm_compute; reflexivity | intros; lia].
    + split; [|discriminate]. left. exists 1.
      repeat split; try lia; try reflexivity.
  - lia.
  - intros k r Hk Hr. rewrite header_row_iff.
    destruct k as [|[|[|[|k]]]]; try lia; vm_compute in Hr; injection Hr as <-;
      vm_compute; discriminate.
  - vm_compute. reflexivity.
  - exists 0. split.
    + left. split; [lia|]. split; [vm_compute; reflexivity | intros; lia].
    + split; [reflexivity | apply test_spec; vm_compute; reflexivity].
Defined.

(** X3. [getItemObject] throws in two cases only: the context has no
    dimensions (they are [null] until a header row sets them) or its status
    is not a string.  In every other case it returns a record. *)
Theorem getItemObject_throws_iff (row : array) (c : context) :
  (getItemObject row c = Throw TypeError <->
   dimensions c = None \/ forall s, status c <> VString s) /\
  ((exists it, getItemObject row c = Ok it) <->
   (exists d, dimensions c = Some d) /\ exists s, status c = VString s).
Proof.
  destruct (dimensions c) as [d|] eqn:Hd.
  - destruct (status c) as [| | | |s] eqn:Hs;
      try (assert (G : getItemObject row c = Throw TypeError)
             by (apply getItemObject_not_string; rewrite Hs; discriminate);
           rewrite G; split;
           [split; [intros _; right; discriminate | reflexivity]
           |split; [intros [it Hit]; discriminate
                   |intros [_ [s' Hs']]; discriminate]]).
    destruct (getItemObject_ok row c s d Hs Hd) as [it G]. rewrite G. split.
    + split; [discriminate|]. intros [H|H]; [discriminate | now destruct (H s)].
    + split; [intros _; split; eauto | intros _; eauto].
  - assert (G : getItemObject row c = Throw TypeError)
      by (unfold getItemObject, dimensions_at; now rewrite Hd).
    rewrite G. split.
    + split; [intros _; now left | reflexivity].
    + split; [intros [it Hit]; discriminate | intros [[d Hd'] _]; discriminate].
Qed.

(** ** The output list *)

Lemma processRow_output (sd : sheetData) (i : Z) (row : array)
      (c c' : context) (output output' : list item) :
  processRow sd i row (c, output) = Ok (c', output') ->
  output' = output \/
  exists it, isDataRow row c = true /\ getItemObject row c = Ok it /\
             output' = output ++ [it].
Proof.
  unfold processRow. destruct (truthy (find isWoodCell row)).
  - intros [= _ <-]. now left.
  - destruct (isDataRow row c).
    + destruct (getItemObject row c) as [it|]; cbn [bind]; [|discriminate].
      intros [= _ <-]. right. now exists it.
    + cbn [bind]. intros [= _ <-]. now left.
Qed.

(** The walk only appends, a record a row at most, each of them built by
    [getItemObject] from a row that passed the test of a data row. *)
Lemma forEachRow_output (P : item -> Prop) (sd : sheetData) (rows : list array) :
  (forall row c it, isDataRow row c = true -> getItemObject row c = Ok it -> P it) ->
  forall (i : Z) (c c' : context) (output output' : list item),
    forEachRow sd rows i (c, output) = Ok (c', output') ->
    exists more, output' = output ++ more /\
                 (length more <= length rows)%nat /\ Forall P more.
Proof.
  intros HP. induction rows as [|r rows IH]; intros i c c' output output'; cbn [forEachRow].
  - intros [= _ <-]. exists []. rewrite app_nil_r. repeat split; [cbn; lia | constructor].
  - destruct (processRow sd i r (c, output)) as [[c1 out1]|] eqn:E; cbn [bind]; [|discriminate].
    intros H. destruct (IH _ _ _ _ _ H) as (more & -> & Hlen & Hall).
    destruct (processRow_output _ _ _ _ _ _ _ E) as [-> | (it & D & G & ->)].
    + exists more. repeat split; [cbn; lia | exact Hall].
    + exists (it :: more). rewrite <- app_assoc. repeat split; [cbn; lia |].
      constructor; [eapply HP; eauto | exact Hall].
Qed.

Lemma forEachSheet_output (P : item -> Prop) (wb : workbook) (names : list string) :
  (forall row c it, isDataRow row c = true -> getItemObject row c = Ok it -> P it) ->
  forall (c c' : context) (output output' : list item),
    forEachSheet wb names (c, output) = Ok (c', output') ->
    exists more, output' = output ++ more /\
                 (length more <= list_sum (map (fun n => length (sheet_rows wb n)) names))%nat /\
                 Forall P more.
Proof.
  intros HP. induction names as [|n names IH]; intros c c' output output'; cbn [forEachSheet].
  - intros [= _ <-]. exists []. rewrite app_nil_r. repeat split; [cbn; lia | constructor].
  - destruct (processSheet (sheet_rows wb n) (c, output)) as [[c1 out1]|] eqn:E;
      cbn [bind]; [|discriminate].
    intros H. destruct (IH _ _ _ _ H) as (more & -> & Hlen & Hall).
    destruct (forEachRow_output P _ _ HP _ _ _ _ _ E) as (first & -> & Hlen1 & Hall1).
    exists (first ++ more). rewrite <- app_assoc. split; [reflexivity|].
    split; [|now apply Forall_app].
    rewrite length_app. cbn [map]. unfold list_sum in *. cbn [fold_right]. lia.
Qed.

Lemma processWorkbook_records (P : item -> Prop) (wb : workbook) (output : list item) :
  (forall row c it, isDataRow row c = true -> getItemObject row c = Ok it -> P it) ->
  processWorkbook wb = Ok output ->
  Forall P output.
Proof.
  intros HP. unfold processWorkbook.
  destruct (forEachSheet wb (SheetNames wb) (initialContext, [])) as [[c out]|] eqn:E;
    cbn [bind]; [|discriminate].
  intros [= <-]. destruct (forEachSheet_output P _ _ HP _ _ _ _ E) as (more & -> & _ & H).
  exact H.
Qed.

(** X4. [processWorkbook] gives at most one record for each row of the
    sheets it walks. *)
Theorem at_most_one_record_per_row (wb : workbook) (output : list item) :
  processWorkbook wb = Ok output ->
  (length output <= rowCount wb)%nat.
Proof.
  unfold processWorkbook, rowCount.
  destruct (forEachSheet wb (SheetNames wb) (initialContext, [])) as [[c out]|] eqn:E;
    cbn [bind]; [|discriminate].
  intros [= <-].
  destruct (forEachSheet_output (fun _ => True) _ _ (fun _ _ _ _ _ => I) _ _ _ _ E)
    as (more & -> & Hlen & _).
  exact Hlen.
Qed.

Lemma at_most_one_record_per_row_witness :
  (length [{| id := "R150602000"; packId := NumberOfString "20231005.2";
              amount := VString "150"; itemStatus := "V" |}]
   <= rowCount (book_of [("Sheet1", sectionSheet)]))%nat.
Proof.
  apply (at_most_one_record_per_row (book_of [("Sheet1", sectionSheet)])).
  vm_compute. reflexivity.
Defined.

(** X5. The sheets are walked in the order of [SheetNames] and the output
    only grows: the records the first sheets of the list have given stay at
    the head of the final list, in their order, and the later sheets add at
    most one record a row after them. *)
Theorem earlier_records_stay_first (wb : workbook) (first later : list string)
        (c1 : context) (output1 output : list item) :
  SheetNames wb = first ++ later ->
  forEachSheet wb first (initialContext, []) = Ok (c1, output1) ->
  processWorkbook wb = Ok output ->
  exists more,
    output = output1 ++ more /\
    (length more <= list_sum (map (fun n => length (sheet_rows wb n)) later))%nat.
Proof.
  intros Hn H1. unfold processWorkbook. rewrite Hn, forEachSheet_app, H1. cbn [bind].
  destruct (forEachSheet wb later (c1, output1)) as [[c out]|] eqn:E; cbn [bind]; [|discriminate].
  intros [= <-].
  destruct (forEachSheet_output (fun _ => True) _ _ (fun _ _ _ _ _ => I) _ _ _ _ E)
    as (more & -> & Hlen & _).
  now exists more.
Qed.

Lemma earlier_records_stay_first_witness :
  exists more,
    [{| id := "R170801000"; packId := NumberOfString "20231005.2";
        amount := VString "150"; itemStatus := "V" |}] = [] ++ more /\
    (length more <=
     list_sum (map (fun n => length
                      (sheet_rows (book_of [("Sheet1", openingSheet);
                                            ("Sheet2", widthThenDataSheet)]) n))
                 ["Sheet2"]))%nat.
Proof.
  apply (earlier_records_stay_first
           (book_of [("Sheet1", openingSheet); ("Sheet2", widthThenDataSheet)])
           ["Sheet1"] ["Sheet2"] sectionContext).
  - reflexivity.
  - vm_compute. reflexivity.
  - vm_compute. reflexivity.
Defined.

(** ** The fields of the records *)

Lemma without_app (c : ascii) (a b : string) :
  Str.without c (a +:+ b) = Str.without c a +:+ Str.without c b.
Proof.
  induction a as [|x a IH]; str_simpl; [reflexivity|]. cbn [Str.without].
  destruct (Ascii.eqb x c); str_simpl; now rewrite IH.
Qed.

(** What [getItemObject] returns, field by field. *)
Lemma getItemObject_fields (row : array) (c : context) (it : item) :
  getItemObject row c = Ok it ->
  exists d s,
    dimensions c = Some d /\ status c = VString s /\
    normalizeStatus (VString s) = Ok (itemStatus it) /\
    amount it = findNextNonEmptyCell row (index_to_number (packIndex c)) /\
    packId it = ToNumber (at_key row (packIndex c)) /\
    id it = Str.without "*" (Str.without "."
              (ToString (ID_PREFIXES_get (woodType c)) +:+ ToString (width c) +:+
               ToString (at_index d (findIndex (fun cell => strictEquals cell (amount it)) row))
               +:+ "0")).
Proof.
  unfold getItemObject, dimensions_at.
  destruct (dimensions c) as [d|]; [|discriminate]. cbn [bind].
  destruct (status c) as [| | | |s]; try discriminate.
  destruct (normalizeStatus (VString s)) as [code|] eqn:N; [|discriminate]. cbn [bind].
  intros [= <-]. exists d, s. cbn [itemStatus amount packId id].
  change "*" with (String "*"%char EmptyString).
  change "." with (String "."%char EmptyString).
  rewrite !replaceAll_char. now repeat split.
Qed.

Lemma normalizeStatus_normal (s code : string) :
  normalizeStatus (VString s) = Ok code -> normalStatus code.
Proof.
  cbn [normalizeStatus].
  destruct (Str.includes "S/F" s) eqn:SF.
  { intros [= <-]. right. split; rewrite <- includes_spec; discriminate. }
  destruct (Str.includes "IV" s) eqn:IV.
  { intros [= <-]. now left. }
  destruct (String.eqb s "V"); intros [= <-]; right.
  - split; rewrite <- includes_spec; discriminate.
  - split; rewrite <- includes_spec; congruence.
Qed.

Lemma normalizeStatus_fixed (code : string) :
  normalStatus code -> normalizeStatus (VString code) = Ok code.
Proof.
  intros [-> | [NSF NIV]]; [reflexivity|]. cbn [normalizeStatus].
  rewrite <- includes_spec in NSF, NIV.
  destruct (Str.includes "S/F" code); [congruence|].
  destruct (Str.includes "IV" code); [congruence|].
  destruct (String.eqb_spec code "V") as [->|]; reflexivity.
Qed.

(** X6. Every record [processWorkbook] gives has an [id] without "." and
    without "*" that ends with the character "0". *)
Theorem record_ids_are_stripped (wb : workbook) (output : list item) (it : item) :
  processWorkbook wb = Ok output ->
  In it output ->
  Str.occurs "." (id it) = false /\
  Str.occurs "*" (id it) = false /\
  exists t, id it = t +:+ "0".
Proof.
  intros HP Hin.
  pose proof (processWorkbook_records
                (fun it => Str.occurs "." (id it) = false /\
                           Str.occurs "*" (id it) = false /\
                           exists t, id it = t +:+ "0") wb output) as H.
  rewrite List.Forall_forall in H. apply H; [|exact HP | exact Hin].
  intros row c it' _ G.
  destruct (getItemObject_fields row c it' G) as (d & s & _ & _ & _ & _ & _ & ->).
  split; [apply without_keeps_absent, without_occurs|].
  split; [apply without_occurs|].
  rewrite <- !app_assoc_str, !without_app. eexists. reflexivity.
Qed.

Lemma record_ids_are_stripped_witness :
  Str.occurs "." "R150602000" = false /\
  Str.occurs "*" "R150602000" = false /\
  exists t, "R150602000" = t +:+ "0".
Proof.
  apply (record_ids_are_stripped (book_of [("Sheet1", sectionSheet)])
           [{| id := "R150602000"; packId := NumberOfString "20231005.2";
               amount := VString "150"; itemStatus := "V" |}]
           {| id := "R150602000"; packId := NumberOfString "20231005.2";
              amount := VString "150"; itemStatus := "V" |}).
  - vm_compute. reflexivity.
  - now left.
Defined.

(** X7. Every record [processWorkbook] gives has a status in normal form:
    "IV", or a text that contains neither "S/F" nor "IV".  Normalizing it
    again gives it back. *)
Theorem record_statuses_are_normal (wb : workbook) (output : list item) (it : item) :
  processWorkbook wb = Ok output ->
  In it output ->
  normalStatus (itemStatus it) /\
  normalizeStatus (VString (itemStatus it)) = Ok (itemStatus it).
Proof.
  intros HP Hin.
  pose proof (processWorkbook_records
                (fun it => normalStatus (itemStatus it)) wb output) as H.
  rewrite List.Forall_forall in H.
  assert (N : normalStatus (itemStatus it)).
  { apply H; [|exact HP | exact Hin]. intros row c it' _ G.
    destruct (getItemObject_fields row c it' G) as (d & s & _ & _ & N & _).
    now apply (normalizeStatus_normal s). }
  split; [exact N | now apply normalizeStatus_fixed].
Qed.

Lemma record_statuses_are_normal_witness :
  normalStatus "V" /\ normalizeStatus (VString "V") = Ok "V".
Proof.
  apply (record_statuses_are_normal (book_of [("Sheet1", sectionSheet)])
           [{| id := "R150602000"; packId := NumberOfString "20231005.2";
               amount := VString "150"; itemStatus := "V" |}]
           {| id := "R150602000"; packId := NumberOfString "20231005.2";
              amount := VString "150"; itemStatus := "V" |}).
  - vm_compute. reflexivity.
  - now left.
Defined.

(** X8. Every record [processWorkbook] gives has for [packId] the number of
    a truthy cell whose text matches the pack-id pattern, and for [amount]
    either [null] or a truthy value: never [undefined], the empty string or
    zero. *)
Theorem record_pack_and_amount (wb : workbook) (output : list item) (it : item) :
  processWorkbook wb = Ok output ->
  In it output ->
  (exists cell, packId it = ToNumber cell /\ truthy cell = true /\
                hasMatch PACK_ID_PATTERN (ToString cell)) /\
  (amount it = VNull \/ truthy (amount it) = true).
Proof.
  intros HP Hin.
  pose proof (processWorkbook_records
                (fun it => (exists cell, packId it = ToNumber cell /\ truthy cell = true /\
                                         hasMatch PACK_ID_PATTERN (ToString cell)) /\
                           (amount it = VNull \/ truthy (amount it) = true)) wb output) as H.
  rewrite List.Forall_forall in H. apply H; [|exact HP | exact Hin].
  intros row c it' D G. apply isDataRow_spec in D as [T M].
  destruct (getItemObject_fields row c it' G) as (d & s & _ & _ & _ & -> & -> & _).
  split; [eexists; eauto|].
  destruct (findNextNonEmptyCell_spec row (index_to_number (packIndex c)))
    as [(j & _ & _ & _ & Tj & _) | (-> & _)]; [now right | now left].
Qed.

Lemma record_pack_and_amount_witness :
  (exists cell, NumberOfString "20231005.2" = ToNumber cell /\ truthy cell = true /\
                hasMatch PACK_ID_PATTERN (ToString cell)) /\
  (VString "150" = VNull \/ truthy (VString "150") = true).
Proof.
  apply (record_pack_and_amount (book_of [("Sheet1", sectionSheet)])
           [{| id := "R150602000"; packId := NumberOfString "20231005.2";
               amount := VString "150"; itemStatus := "V" |}]
           {| id := "R150602000"; packId := NumberOfString "20231005.2";
              amount := VString "150"; itemStatus := "V" |}).
  - vm_compute. reflexivity.
  - now left.
Defined.

(** X9. [normalizeStatus] is idempotent on strings, and the strings it
    leaves as they are are exactly those in normal form: "IV" and the texts
    that contain neither "S/F" nor "IV". *)
Theorem normalizeStatus_idempotent (s : string) :
  (forall code, normalizeStatus (VString s) = Ok code ->
                normalizeStatus (VString code) = Ok code) /\
  (normalizeStatus (VString s) = Ok s <-> normalStatus s).
Proof.
  split.
  - intros code H. apply normalizeStatus_fixed. now apply (normalizeStatus_normal s).
  - split; [apply normalizeStatus_normal | apply normalizeStatus_fixed].
Qed.

Lemma normalizeStatus_idempotent_witness :
  normalizeStatus (VString "SF") = Ok "SF".
Proof.
  destruct (normalizeStatus_idempotent "Some S/F IV text") as [H _].
  apply H. reflexivity.
Defined.

(** ** The prefix of the id *)

Lemma ID_PREFIXES_other (key : value) :
  ToString key <> "redwood" -> ToString key <> "whitewood" ->
  ID_PREFIXES_get key = VUndefined.
Proof.
  intros H1 H2. unfold ID_PREFIXES_get, ID_PREFIXES.
  rewrite lookup_insert_ne by congruence.
  rewrite lookup_singleton_ne by congruence. reflexivity.
Qed.

Lemma id_starts_with (row : array) (c : context) (it : item) (prefix : string) :
  getItemObject row c = Ok it ->
  ToString (ID_PREFIXES_get (woodType c)) = prefix ->
  Str.occurs "." prefix = false -> Str.occurs "*" prefix = false ->
  exists t, id it = prefix +:+ t.
Proof.
  intros G E Hdot Hstar.
  destruct (getItemObject_fields row c it G) as (d & s & _ & _ & _ & _ & _ & ->).
  rewrite E, !without_app.
  assert (K : forall (x : ascii) (u : string), Str.occurs x u = false -> Str.without x u = u).
  { intros x u. induction u as [|a u IH]; [reflexivity|]. cbn [Str.occurs Str.without].
    intros H. apply orb_false_iff in H as [Ha Hu]. now rewrite Ha, IH. }
  rewrite (K "."%char prefix Hdot), (K "*"%char prefix Hstar). eexists. reflexivity.
Qed.

(** X10. The [id] of a record begins with "R1" when the wood type of the
    section is the text "redwood" and with "W1" when it is "whitewood".  For
    any other cell that the wood-type pattern let through (the pattern asks
    for the letters "wood" after one character, not for one of the two
    names), the lookup in [ID_PREFIXES] finds nothing and the [id] begins
    with the text "undefined". *)
Theorem id_prefix_by_wood_type (row : array) (c : context) (it : item) :
  hasMatch WOOD_PATTERN (ToString (woodType c)) ->
  getItemObject row c = Ok it ->
  (ToString (woodType c) = "redwood" -> exists t, id it = "R1" +:+ t) /\
  (ToString (woodType c) = "whitewood" -> exists t, id it = "W1" +:+ t) /\
  (ToString (woodType c) <> "redwood" -> ToString (woodType c) <> "whitewood" ->
   exists t, id it = "undefined" +:+ t).
Proof.
  intros _ G. split; [|split].
  - intros E. apply (id_starts_with row c it "R1" G); [|reflexivity|reflexivity].
    unfold ID_PREFIXES_get. now rewrite E.
  - intros E. apply (id_starts_with row c it "W1" G); [|reflexivity|reflexivity].
    unfold ID_PREFIXES_get. now rewrite E.
  - intros H1 H2. apply (id_starts_with row c it "undefined" G); [|reflexivity|reflexivity].
    now rewrite ID_PREFIXES_other.
Qed.

Lemma id_prefix_by_wood_type_witness :
  exists t, id {| id := "undefined50601000"; packId := NumberOfString "20231005.2";
                  amount := VString "150"; itemStatus := "V" |} = "undefined" +:+ t.
Proof.
  destruct (id_prefix_by_wood_type
              [VString "20231005.2"; VString "150"]
              {| woodType := VString "plywood"; width := VString "50*60";
                 status := VString "V";
                 dimensions := Some [VString "PACK"; VString "100"; VString "200"];
                 packIndex := Some 0 |}
              {| id := "undefined50601000"; packId := NumberOfString "20231005.2";
                 amount := VString "150"; itemStatus := "V" |})
    as (_ & _ & H).
  - apply test_spec. vm_compute. reflexivity.
  - vm_compute. reflexivity.
  - apply H; discriminate.
Defined.

(** ** findNextNonEmptyCell at the edges *)

Lemma firstTruthyAfter_transfer (a b : array) (i i' : Z) (v : value) :
  i' <= i ->
  (forall k, i < k -> at_index b k = at_index a k) ->
  (forall k, i' < k <= i -> truthy (at_index b k) = false) ->
  firstTruthyAfter a i v -> firstTruthyAfter b i' v.
Proof.
  intros Hi Hsame Hlow [(j & Hj & Hj0 & Lj & Tj & Bj) | (-> & Nj)].
  - left. exists j. pose proof (at_index_lookup a j v Hj0 Lj) as Ej.
    assert (Eb : at_index b j = v) by (rewrite Hsame; auto).
    split; [lia|]. split; [exact Hj0|]. split.
    + pose proof Tj as Tb. rewrite <- Eb in Tb.
      destruct (at_index_truthy b j Tb) as [_ Lb]. now rewrite Eb in Lb.
    + split; [exact Tj|]. intros k Hk.
      destruct (Z_le_gt_dec k i) as [Hle|Hgt]; [apply Hlow; lia|].
      rewrite Hsame by lia. apply Bj. lia.
  - right. split; [reflexivity|]. intros k Hk.
    destruct (Z_le_gt_dec k i) as [Hle|Hgt]; [apply Hlow; lia|].
    rewrite Hsame by lia. apply Nj. lia.
Qed.

(** X11. [findNextNonEmptyCell] returns [null] for an index at or past the
    last position (so for the empty array), for an index of -1 or below it
    searches the whole array, and what it returns is always [null] or a
    truthy value. *)
Theorem findNextNonEmptyCell_edges (a : array) (i : Z) :
  (Z.of_nat (length a) - 1 <= i -> findNextNonEmptyCell a i = VNull) /\
  (i <= -1 -> findNextNonEmptyCell a i = findNextNonEmptyCell a (-1)) /\
  (findNextNonEmptyCell a i = VNull \/ truthy (findNextNonEmptyCell a i) = true).
Proof.
  split; [|split].
  - intros Hi. apply (firstTruthyAfter_unique a i); [apply findNextNonEmptyCell_spec|].
    right. split; [reflexivity|]. intros k Hk. rewrite at_index_beyond; [reflexivity | lia].
  - intros Hi. apply (firstTruthyAfter_unique a i); [apply findNextNonEmptyCell_spec|].
    apply (firstTruthyAfter_transfer a a (-1) i); [exact Hi | reflexivity | |
                                                   apply findNextNonEmptyCell_spec].
    intros k Hk. unfold at_index. destruct (Z.ltb_spec k 0); [reflexivity | lia].
  - destruct (findNextNonEmptyCell_spec a i) as [(j & _ & _ & _ & T & _) | (E & _)];
      [now right | now left].
Qed.

Lemma findNextNonEmptyCell_edges_witness :
  findNextNonEmptyCell [VString "a"; VString EmptyString] 1 = VNull /\
  findNextNonEmptyCell [VString "a"; VString EmptyString] (-3)
  = findNextNonEmptyCell [VString "a"; VString EmptyString] (-1).
Proof.
  split.
  - destruct (findNextNonEmptyCell_edges [VString "a"; VString EmptyString] 1) as [H _].
    apply H. cbn. lia.
  - destruct (findNextNonEmptyCell_edges [VString "a"; VString EmptyString] (-3))
      as (_ & H & _).
    apply H. lia.
Defined.

(** X12. [findNextNonEmptyCell] looks only at the cells after the index: on
    two arrays that hold the same cells after it (whatever they hold up to
    it, and whatever their lengths) it returns the same value. *)
Theorem findNextNonEmptyCell_ignores_before (a b : array) (i : Z) :
  (forall k, i < k -> at_index b k = at_index a k) ->
  findNextNonEmptyCell a i = findNextNonEmptyCell b i.
Proof.
  intros Hsame. apply (firstTruthyAfter_unique b i); [|apply findNextNonEmptyCell_spec].
  apply (firstTruthyAfter_transfer a b i i); [lia | exact Hsame | intros; lia |].
  apply findNextNonEmptyCell_spec.
Qed.

Lemma findNextNonEmptyCell_ignores_before_witness :
  findNextNonEmptyCell [VString "x"; VNull; VString "b"] 0
  = findNextNonEmptyCell [VNumber "7"; VNull; VString "b"; VUndefined] 0.
Proof.
  apply findNextNonEmptyCell_ignores_before.
  intros k Hk. unfold at_index. destruct (Z.ltb_spec k 0); [lia|].
  destruct (Z.to_nat k) as [|[|[|[|n]]]] eqn:E; try reflexivity. lia.
Defined.

(** ** The dimensions row and sections without "PACK" *)

Lemma not_data_row_no_pack (row : array) (c : context) :
  packIndex c = Some (-1) -> isDataRow row c = false.
Proof. intros Hp. unfold isDataRow. now rewrite Hp. Qed.

(** X13. The dimensions row is never taken for a data row.  After a header
    row, the row below it (when it is no header itself) adds no record and
    throws nothing, whatever the status is: its cell at [packIndex] is the
    text "PACK" itself, or [undefined] when the row has no "PACK". *)
Theorem dimensions_row_emits_nothing (sd : sheetData) (i : nat) (hdr dims : array)
        (c : context) (output : list item) :
  isHeaderRow hdr ->
  sd !! (i + 1)%nat = Some dims ->
  ~ isHeaderRow dims ->
  exists c1 c2,
    processRow sd (Z.of_nat i) hdr (c, output) = Ok (c1, output) /\
    dimensions c1 = Some dims /\
    processRow sd (Z.of_nat (i + 1)) dims (c1, output) = Ok (c2, output) /\
    sameSection c1 c2.
Proof.
  intros Hh Hd Hn.
  destruct (header_row_step sd i hdr c output Hh)
    as (k & wood & st & p & c1 & _ & _ & Hp & E & _ & _ & Hdims & Hpi & _).
  assert (Er : rowBelow sd (i + 1) = dims) by (unfold rowBelow; now rewrite Hd).
  rewrite Er in *.
  assert (D : isDataRow dims c1 = false).
  { unfold isDataRow. rewrite Hpi. cbn [at_key].
    destruct Hp as [(Hp0 & Lp & _) | (-> & _)]; [|reflexivity].
    now rewrite (at_index_lookup dims p _ Hp0 Lp). }
  exists c1. eexists. split; [exact E|]. split; [exact Hdims|].
  rewrite (processRow_plain _ _ _ _ _ (not_header_find _ Hn) D).
  split; [reflexivity|].
  destruct (isWidthCell _); [apply sameSection_set_width | apply sameSection_refl].
Qed.

Lemma dimensions_row_emits_nothing_witness :
  exists c1 c2,
    processRow bareHeaderSheet (Z.of_nat 0) [VString "redwood"] (initialContext, [])
    = Ok (c1, []) /\
    dimensions c1 = Some [VString "PACK"; VString "100"] /\
    processRow bareHeaderSheet (Z.of_nat (0 + 1)) [VString "PACK"; VString "100"] (c1, [])
    = Ok (c2, []) /\
    sameSection c1 c2.
Proof.
  apply (dimensions_row_emits_nothing bareHeaderSheet 0).
  - apply header_row_iff. reflexivity.
  - reflexivity.
  - rewrite header_row_iff. vm_compute. discriminate.
Defined.

Lemma forEachRow_packless (sd : sheetData) (rows : list array) :
  forall (i : nat) (c : context) (output : list item),
    (forall (k : nat) r, rows !! k = Some r -> isHeaderRow r ->
                         ~ In (VString "PACK") (rowBelow sd (i + k + 1))) ->
    packless c ->
    exists c', forEachRow sd rows (Z.of_nat i) (c, output) = Ok (c', output) /\ packless c'.
Proof.
  induction rows as [|r rows IH]; intros i c output Hrows Hc.
  - now exists c.
  - cbn [forEachRow].
    assert (Step : exists c1, processRow sd (Z.of_nat i) r (c, output) = Ok (c1, output) /\
                              packless c1).
    { destruct (header_row_dec r) as [Hh|Hn].
      - destruct (header_row_step sd i r c output Hh)
          as (k & wood & st & p & c1 & _ & _ & Hp & E & _ & _ & _ & Hpi & _).
        exists c1. split; [exact E|]. right. rewrite Hpi. f_equal.
        destruct Hp as [(Hp0 & Lp & _) | (-> & _)]; [|reflexivity].
        destruct (Hrows O r eq_refl Hh).
        replace (i + 0 + 1)%nat with (i + 1)%nat by lia. eapply lookup_In; eauto.
      - assert (D : isDataRow r c = false)
          by (destruct Hc; [now apply not_data_row_unset | now apply not_data_row_no_pack]).
        rewrite (processRow_plain _ _ _ _ _ (not_header_find _ Hn) D).
        eexists. split; [reflexivity|]. unfold packless in *. now destruct (isWidthCell _). }
    destruct Step as (c1 & -> & Hc1). cbn [bind].
    replace (Z.of_nat i + 1) with (Z.of_nat (S i)) by lia.
    apply IH; [|exact Hc1]. intros k r' Hk Hh.
    replace (S i + k + 1)%nat with (i + S k + 1)%nat by lia. now apply (Hrows (S k) r').
Qed.

Lemma forEachSheet_packless (wb : workbook) (names : list string) :
  forall (c : context) (output : list item),
    (forall n (k : nat) r, In n names -> sheet_rows wb n !! k = Some r -> isHeaderRow r ->
                           ~ In (VString "PACK") (rowBelow (sheet_rows wb n) (k + 1))) ->
    packless c ->
    exists c', forEachSheet wb names (c, output) = Ok (c', output) /\ packless c'.
Proof.
  induction names as [|n names IH]; intros c output Hall Hc.
  - now exists c.
  - cbn [forEachSheet]. unfold processSheet.
    destruct (forEachRow_packless (sheet_rows wb n) (sheet_rows wb n) 0 c output)
      as (c1 & E & Hc1); [| exact Hc |].
    + intros k r Hk Hh. apply (Hall n k r); [now left | exact Hk | exact Hh].
    + change (Z.of_nat 0) with 0 in E. rewrite E. cbn [bind].
      apply IH; [|exact Hc1]. intros m k r Hm. apply (Hall m k r). now right.
Qed.

(** X14. A section whose dimensions row has no cell "PACK" gives no record
    and no error: [packIndex] is -1, the cell read at -1 is [undefined], and
    no row passes the test of a data row, be the status a string or not.
    A workbook in which the row below every header row lacks "PACK" is
    processed to the empty list. *)
Theorem no_pack_column_no_records (wb : workbook) :
  (forall n (k : nat) r, In n (SheetNames wb) -> sheet_rows wb n !! k = Some r ->
                         isHeaderRow r ->
                         ~ In (VString "PACK") (rowBelow (sheet_rows wb n) (k + 1))) ->
  processWorkbook wb = Ok [].
Proof.
  intros Hall. unfold processWorkbook.
  destruct (forEachSheet_packless wb (SheetNames wb) initialContext [] Hall
              (or_introl eq_refl)) as (c' & -> & _).
  reflexivity.
Qed.

Lemma no_pack_column_no_records_witness :
  processWorkbook (book_of [("Sheet1", noPackSheet)]) = Ok [].
Proof.
  apply no_pack_column_no_records.
  intros n k r [<-|[]] Hk Hh.
  destruct k as [|[|[|[|k]]]]; vm_compute in Hk; try discriminate; injection Hk as <-;
    try (apply header_row_iff in Hh; vm_compute in Hh; discriminate).
  vm_compute. intros [H|[H|[]]]; discriminate.
Defined.

(** ** The export and the view *)

Lemma item_keys (l : list item) :
  collect_keys ["id"; "packId"; "amount"; "status"] (map item_object l)
  = ["id"; "packId"; "amount"; "status"].
Proof. induction l as [|x l IH]; [reflexivity | exact IH]. Qed.

Lemma exportToExcel_rows (it : item) (l : list item) :
  exportToExcel (it :: l) =
  [WriteFile [("Processed Data",
               [Some (FString "id"); Some (FString "packId");
                Some (FString "amount"); Some (FString "status")]
                 :: map item_row (it :: l))]
             "processed_output.xlsx"].
Proof.
  unfold exportToExcel.
  destruct (Z.eqb_spec (Z.of_nat (length (it :: l))) 0) as [E|_]; [discriminate E|].
  unfold json_to_sheet, book_append_sheet, book_new.
  cbn [map collect_keys].
  change (fold_left _ (item_object it) []) with ["id"; "packId"; "amount"; "status"].
  rewrite item_keys. cbn [app]. do 3 f_equal.
  change (map item_row (it :: l)) with (item_row it :: map item_row l).
  rewrite map_map. apply (f_equal (pair "Processed Data")).
  apply (f_equal2 cons); [reflexivity|]. apply (f_equal2 cons); [reflexivity|].
  apply map_ext. reflexivity.
Qed.

(** X15. What [exportToExcel] writes for a list of at least one record is
    the header row and then one row for each record, in the order of the
    list, holding its [id], [packId], [amount] and [status] in that order;
    the file name is "processed_output.xlsx". *)
Theorem exportToExcel_keeps_order (it : item) (l : list item) :
  exportToExcel (it :: l) =
  [WriteFile [("Processed Data",
               [Some (FString "id"); Some (FString "packId");
                Some (FString "amount"); Some (FString "status")]
                 :: map item_row (it :: l))]
             "processed_output.xlsx"].
Proof. apply exportToExcel_rows. Qed.

(** X16. The export button is rendered only for a state with a file name and
    at least one record, so a click on it never meets the empty list: it
    writes the file and raises no notice.  The "No data to export!" branch
    of [exportToExcel] is out of reach of the rendered button. *)
Theorem export_button_always_writes (st : componentState) :
  exportButton (render st) = true ->
  fileName st <> EmptyString /\
  existsb is_alert (clickExport st) = false /\
  exists ws, clickExport st = [WriteFile [("Processed Data", ws)] "processed_output.xlsx"] /\
             length ws = S (length (data st)).
Proof.
  unfold render, clickExport. cbn [exportButton]. intros H.
  apply andb_true_iff in H as [Hn Hf]. apply negb_true_iff in Hn.
  split; [now apply String.eqb_neq|].
  destruct (data st) as [|it l]; [discriminate Hf|].
  rewrite exportToExcel_rows. split; [reflexivity|].
  eexists. split; [reflexivity|]. cbn [length]. now rewrite length_map.
Qed.

Lemma export_button_always_writes_witness :
  fileName {| data := [{| id := "R150602000"; packId := NumberOfString "20231005.2";
                          amount := VString "150"; itemStatus := "V" |}];
              fileName := "stock.xlsx" |} <> EmptyString /\
  existsb is_alert
    (clickExport {| data := [{| id := "R150602000"; packId := NumberOfString "20231005.2";
                                amount := VString "150"; itemStatus := "V" |}];
                    fileName := "stock.xlsx" |}) = false /\
  exists ws,
    clickExport {| data := [{| id := "R150602000"; packId := NumberOfString "20231005.2";
                               amount := VString "150"; itemStatus := "V" |}];
                   fileName := "stock.xlsx" |}
    = [WriteFile [("Processed Data", ws)] "processed_output.xlsx"] /\
    length ws = S (length (data {| data := [{| id := "R150602000";
                                              packId := NumberOfString "20231005.2";
                                              amount := VString "150";
                                              itemStatus := "V" |}];
                                   fileName := "stock.xlsx" |})).
Proof.
  apply export_button_always_writes. reflexivity.
Defined.

(** X17. After the upload of a workbook without a section-header row under
    a non-empty file name, whatever was on screen before, the component
    shows the name, the message "No data available to display." in place of
    the table, and no export button. *)
Theorem headerless_upload_view (wb : workbook) (name : string) (st : componentState) :
  name <> EmptyString ->
  (forall n row, In n (SheetNames wb) -> In row (sheet_rows wb n) -> ~ isHeaderRow row) ->
  render (runEffects st (handleFileUpload (Decoded name wb))) =
  {| uploadedLine := Some name;
     exportButton := false;
     shown := Some (Message "No data available to display.") |}.
Proof.
  intros Hname Hall.
  assert (P : processWorkbook wb = Ok []).
  { unfold processWorkbook.
    destruct (forEachSheet_unset wb (SheetNames wb) initialContext [] Hall eq_refl)
      as (c' & -> & _). reflexivity. }
  cbn [handleFileUpload]. rewrite P. cbn [runEffects fold_left runEffect data fileName].
  unfold render. cbn [data fileName length].
  apply String.eqb_neq in Hname. rewrite Hname. reflexivity.
Qed.

Lemma headerless_upload_view_witness :
  render (runEffects
            {| data := [{| id := "R150602000"; packId := NumberOfString "20231005.2";
                           amount := VString "150"; itemStatus := "V" |}];
               fileName := "old.xlsx" |}
            (handleFileUpload (Decoded "stock.xlsx" (book_of [("Sheet1", dataOnlySheet)]))))
  = {| uploadedLine := Some "stock.xlsx";
       exportButton := false;
       shown := Some (Message "No data available to display.") |}.
Proof.
  apply headerless_upload_view.
  - discriminate.
  - intros n row [<-|[]] Hin. vm_compute in Hin. destruct Hin as [<-|[]].
    rewrite header_row_iff. vm_compute. discriminate.
Defined.

(** ** The three tests of the walk, in plain terms *)

Lemma string_snoc (p : string) :
  p <> EmptyString -> exists q x, p = q +:+ String x EmptyString.
Proof.
  induction p as [|c p IH]; [congruence|]. intros _.
  destruct p as [|c' p'].
  - now exists EmptyString, c.
  - destruct IH as (q & x & E); [discriminate|].
    exists (String c q), x. str_simpl. now rewrite E.
Qed.

Lemma allInClass_app (cc : RegExp.charclass) (a b : string) :
  allInClass cc (a +:+ b) = allInClass cc a && allInClass cc b.
Proof.
  induction a as [|x a IH]; str_simpl; [reflexivity|]. cbn [allInClass].
  now rewrite IH, andb_assoc.
Qed.

Lemma wood_in_plain_terms (s : string) :
  hasMatch WOOD_PATTERN s <->
  exists a x b, s = a +:+ String x "wood" +:+ b /\ RegExp.is_line_terminator x = false.
Proof.
  unfold hasMatch. split.
  - intros (a & u & b & -> & M). apply WOOD_PATTERN_words in M as (p & -> & Hne & Hp).
    destruct (string_snoc p Hne) as (q & x & ->).
    unfold oneLine in Hp. rewrite allInClass_app in Hp. apply andb_true_iff in Hp as [_ Hx].
    cbn [allInClass RegExp.in_class] in Hx. rewrite andb_true_r in Hx.
    apply negb_true_iff in Hx.
    exists (a +:+ q), x, b. split; [|exact Hx].
    rewrite !app_assoc_str. now str_simpl.
  - intros (a & x & b & -> & Hx). exists a, (String x "wood"), b. split; [reflexivity|].
    apply WOOD_PATTERN_words. exists (String x EmptyString).
    split; [reflexivity|]. split; [discriminate|].
    unfold oneLine. cbn [allInClass RegExp.in_class]. now rewrite Hx.
Qed.

Lemma width_in_plain_terms (s : string) :
  hasMatch WIDTH_PATTERN s <->
  exists a d1 d2 b,
    s = a +:+ String d1 (String "*" (String d2 b)) /\
    RegExp.is_digit d1 = true /\ RegExp.is_digit d2 = true.
Proof.
  unfold hasMatch. split.
  - intros (a & u & b & -> & M).
    apply WIDTH_PATTERN_words in M as (m & n & -> & Hm & Dm & Hn & Dn).
    destruct (string_snoc m Hm) as (q & d1 & ->).
    destruct n as [|d2 n]; [congruence|].
    unfold allDigits in *. rewrite allInClass_app in Dm.
    apply andb_true_iff in Dm as [_ D1]. cbn [allInClass RegExp.in_class] in D1, Dn.
    rewrite andb_true_r in D1. apply andb_true_iff in Dn as [D2 _].
    exists (a +:+ q), d1, d2, (n +:+ b). split; [|now split].
    rewrite !app_assoc_str. now str_simpl.
  - intros (a & d1 & d2 & b & -> & D1 & D2).
    exists a, (String d1 (String "*" (String d2 EmptyString))), b.
    split; [now str_simpl|].
    apply WIDTH_PATTERN_words.
    exists (String d1 EmptyString), (String d2 EmptyString).
    split; [reflexivity|]. unfold allDigits. cbn [allInClass RegExp.in_class].
    rewrite D1, D2. repeat split; discriminate.
Qed.

Lemma pack_id_in_plain_terms (s : string) :
  hasMatch PACK_ID_PATTERN s <->
  exists a d8 d b,
    s = a +:+ d8 +:+ String "." (String d b) /\
    String.length d8 = 8%nat /\ allDigits d8 = true /\ RegExp.is_digit d = true.
Proof.
  unfold hasMatch. split.
  - intros (a & u & b & -> & M).
    apply PACK_ID_PATTERN_words in M as (d8 & d & -> & Hl & Hd & Hc).
    exists a, d8, d, b. split; [|now repeat split].
    rewrite !app_assoc_str. now str_simpl.
  - intros (a & d8 & d & b & -> & Hl & Hd & Hc).
    exists a, (d8 +:+ "." +:+ String d EmptyString), b. split.
    + rewrite !app_assoc_str. now str_simpl.
    + apply PACK_ID_PATTERN_words. now exists d8, d.
Qed.

(** X18. The header test is looser than the two names of [WOOD_TYPES]: a row
    is taken for a section header exactly when the text of one of its cells
    holds, anywhere, the letters "wood" right after a character that is not
    a line terminator.  A cell "wood" alone does not qualify; "plywood" or
    "a redwood board" does. *)
Theorem header_test_in_plain_terms (row : array) :
  truthy (find isWoodCell row) = true <->
  exists cell a x b,
    In cell row /\
    ToString cell = a +:+ String x "wood" +:+ b /\
    RegExp.is_line_terminator x = false.
Proof.
  rewrite <- header_row_iff. unfold isHeaderRow. split.
  - intros (cell & Hin & Hm). apply wood_in_plain_terms in Hm as (a & x & b & E & Hx).
    now exists cell, a, x, b.
  - intros (cell & a & x & b & Hin & E & Hx). exists cell. split; [exact Hin|].
    apply wood_in_plain_terms. now exists a, x, b.
Qed.

(** X19. The test of the width update succeeds exactly when the text of the
    cell holds, anywhere, a digit, a "*" and a digit in a row: the pattern
    is not anchored, so "about 100*200 mm" passes as "100*200" does, and the
    truthiness test before it adds nothing. *)
Theorem width_test_in_plain_terms (w : value) :
  isWidthCell w = true <->
  exists a d1 d2 b,
    ToString w = a +:+ String d1 (String "*" (String d2 b)) /\
    RegExp.is_digit d1 = true /\ RegExp.is_digit d2 = true.
Proof.
  rewrite isWidthCell_spec, widthCellMatches_iff. apply width_in_plain_terms.
Qed.

(** X20. The test of a data row succeeds exactly when the text of the cell
    at [packIndex] holds, anywhere, eight digits, a dot and a digit in a
    row.  The pattern is not anchored: a longer number such as
    "123456789.55" passes; and the truthiness test before it adds nothing. *)
Theorem data_row_test_in_plain_terms (row : array) (c : context) :
  isDataRow row c = true <->
  exists a d8 d b,
    ToString (at_key row (packIndex c)) = a +:+ d8 +:+ String "." (String d b) /\
    String.length d8 = 8%nat /\ allDigits d8 = true /\ RegExp.is_digit d = true.
Proof.
  rewrite isDataRow_spec, packCellMatches_iff. apply pack_id_in_plain_terms.
Qed.

(** ** The position of the amount *)

(** X21. [amountIndex] is looked up by value, not by position.  When the
    amount of a record is a cell found at position [j] after [packIndex],
    [amountIndex] is the first position of the row that holds an equal cell:
    it is never -1, it is at most [j], and it is [j] only if no cell before
    [j] equals the amount.  When no cell follows [packIndex] the amount is
    [null] and [amountIndex] is -1, unless the row holds a [null] cell. *)
Theorem amount_index_by_value (row : array) (c : context) (it : item) (p : Z) :
  packIndex c = Some p ->
  getItemObject row c = Ok it ->
  (truthy (amount it) = true ->
   exists j n,
     n = findIndex (fun cell => strictEquals cell (amount it)) row /\
     p < j /\ row !! Z.to_nat j = Some (amount it) /\
     0 <= n <= j /\ row !! Z.to_nat n = Some (amount it) /\
     (n = j <-> forall k, (k < Z.to_nat j)%nat -> row !! k <> Some (amount it))) /\
  (amount it = VNull ->
   findIndex (fun cell => strictEquals cell VNull) row = -1 \/
   exists n, n = findIndex (fun cell => strictEquals cell VNull) row /\
             row !! Z.to_nat n = Some VNull).
Proof.
  intros Hp G.
  destruct (getItemObject_fields row c it G) as (d & s & _ & _ & _ & Ha & _).
  rewrite Hp in Ha. cbn [index_to_number] in Ha. split.
  - intros T.
    destruct (findNextNonEmptyCell_spec row p) as [(j & Hj & Hj0 & Lj & _ & _) | (E & _)];
      [|rewrite Ha, E in T; discriminate].
    rewrite <- Ha in Lj.
    destruct (findIndex_firstIndexOf (amount it) row T) as [(Hn0 & Ln & Bn) | (_ & Hno)];
      [|destruct Hno; eapply lookup_In; eauto].
    set (n := findIndex (fun cell => strictEquals cell (amount it)) row) in *.
    assert (Hle : n <= j).
    { destruct (Z_le_gt_dec n j) as [H|H]; [exact H|].
      destruct (Bn (Z.to_nat j)); [lia | exact Lj]. }
    exists j, n. split; [reflexivity|]. split; [exact Hj|]. split; [exact Lj|].
    split; [lia|]. split; [exact Ln|]. split.
    + intros ->. exact Bn.
    + intros Hb. destruct (Z.eq_dec n j) as [H|H]; [exact H|].
      destruct (Hb (Z.to_nat n)); [lia | exact Ln].
  - intros E.
    destruct (findIndex_self_equal VNull row eq_refl) as [(Hn0 & Ln & _) | (Hn & _)].
    + right. eexists. split; [reflexivity | exact Ln].
    + now left.
Qed.

Lemma amount_index_by_value_witness :
  exists j n,
    n = findIndex (fun cell => strictEquals cell (VString "150"))
          [VString "150"; VString "20231005.2"; VString "150"] /\
    1 < j /\
    [VString "150"; VString "20231005.2"; VString "150"] !! Z.to_nat j
    = Some (VString "150") /\
    0 <= n <= j /\
    [VString "150"; VString "20231005.2"; VString "150"] !! Z.to_nat n
    = Some (VString "150") /\
    (n = j <-> forall k, (k < Z.to_nat j)%nat ->
                         [VString "150"; VString "20231005.2"; VString "150"] !! k
                         <> Some (VString "150")).
Proof.
  destruct (amount_index_by_value
              [VString "150"; VString "20231005.2"; VString "150"]
              {| woodType := VString "redwood"; width := VString "50*60";
                 status := VString "V";
                 dimensions := Some [VString "100"; VString "PACK"; VString "200"];
                 packIndex := Some 1 |}
              {| id := "R150601000"; packId := NumberOfString "20231005.2";
                 amount := VString "150"; itemStatus := "V" |} 1) as [H _].
  - reflexivity.
  - vm_compute. reflexivity.
  - apply H. reflexivity.
Defined.

Lemma getItemObject_throws_iff_witness :
  getItemObject [VString "20231005.2"; VString "150"] initialContext = Throw TypeError.
Proof.
  destruct (getItemObject_throws_iff [VString "20231005.2"; VString "150"] initialContext)
    as [[_ H] _].
  apply H. now left.
Defined.

Lemma header_test_in_plain_terms_witness :
  truthy (find isWoodCell [VNumber "12"; VString "a plywood board"]) = true.
Proof.
  apply header_test_in_plain_terms.
  exists (VString "a plywood board"), "a pl", "y"%char, " board".
  split; [right; now left | split; reflexivity].
Defined.

Lemma width_test_in_plain_terms_witness :
  isWidthCell (VString "about 100*200 mm") = true.
Proof.
  apply width_test_in_plain_terms.
  exists "about 10", "0"%char, "2"%char, "00 mm". repeat split.
Defined.

Lemma data_row_test_in_plain_terms_witness :
  isDataRow [VString "123456789.55"] sectionContext = true.
Proof.
  apply data_row_test_in_plain_terms.
  exists "1", "23456789", "5"%char, "5". repeat split.
Defined.

(** ** The context across a sheet boundary *)




